(** * px4tools.ulog: root selection, Allan-deviation windows, topic store and merge

    Shallow embedding of [src/px4tools/ulog.py]:
    - [_smallest_positive_real_root] and the three chained root searches of
      [plot_allan_std_dev];
    - the in-place reindexing done by [plot_allan_std_dev] and
      [plot_autocorrelation] on the series they receive;
    - [PX4MessageDict.__init__] and [PX4MessageDict.concat];
    - the naming of topics and columns in [read_ulog], and
      [cached_log_processing];
    - [noise_analysis_sensor], [series_quat2euler], [compute_data] and
      [estimator_analysis].

    float64 values are IEEE-754 binary64 numbers, represented by the
    Standard Library's [spec_float] (sign, mantissa, exponent) with its
    comparison and arithmetic at precision 53 and exponent bound 1024. *)

From Stdlib Require Import ZArith List Bool String Ascii Lia SpecFloat.
From Stdlib Require Import Permutation.
Import ListNotations.
Local Open Scope Z_scope.

(** ** float64 *)

Module F64.

Definition float64 := spec_float.

Definition prec : Z := 53.
Definition emax : Z := 1024.

Definition nan : float64 := S754_nan.
Definition zero : float64 := S754_zero false.

(** Conversion of an integer (a Python [int] or an int64) to float64,
    rounding to nearest even. *)
Definition of_Z (z : Z) : float64 := binary_normalize prec emax z 0 false.

Definition lt (x y : float64) : bool := SFltb x y.
Definition gt (x y : float64) : bool := SFltb y x.
Definition le (x y : float64) : bool := SFleb x y.
Definition eq (x y : float64) : bool := SFeqb x y.

Definition mul (x y : float64) : float64 := SFmul prec emax x y.
Definition add (x y : float64) : float64 := SFadd prec emax x y.
Definition sub (x y : float64) : float64 := SFsub prec emax x y.
Definition div (x y : float64) : float64 := SFdiv prec emax x y.
Definition sqrt (x : float64) : float64 := SFsqrt prec emax x.

(** [np.isnan], [np.isfinite] *)
Definition isnan (x : float64) : bool :=
  match x with S754_nan => true | _ => false end.

Definition isfinite (x : float64) : bool :=
  match x with
  | S754_zero _ | S754_finite _ _ _ => true
  | S754_infinity _ | S754_nan => false
  end.

(** Truncation toward zero, as done by a cast of a finite float64 to
    int64. *)
Definition trunc (x : float64) : option Z :=
  match x with
  | S754_zero _ => Some 0
  | S754_finite s m e =>
      let a := match e with
               | Zneg p => Z.shiftr (Zpos m) (Zpos p)
               | _ => Z.shiftl (Zpos m) e
               end in
      Some (if s then - a else a)
  | _ => None
  end.

(** Smallest integer not below a finite float64 ([np.ceil] then cast). *)
Definition ceil (x : float64) : option Z :=
  match x with
  | S754_zero _ => Some 0
  | S754_finite s m e =>
      match e with
      | Zneg p =>
          let q := Z.shiftr (Zpos m) (Zpos p) in
          let exact := Z.eqb (Z.shiftl q (Zpos p)) (Zpos m) in
          Some (if s then - q else if exact then q else q + 1)
      | _ => let a := Z.shiftl (Zpos m) e in Some (if s then - a else a)
      end
  | _ => None
  end.

(** Literals used by the source and by the examples. *)
Definition f0_1 : float64 := S754_finite false 7205759403792794 (-56).   (* 0.1 *)
Definition f1em12 : float64 := S754_finite false 4951760157141521 (-92). (* 1e-12 *)
Definition f0_5 : float64 := S754_finite false 4503599627370496 (-53).   (* 0.5 *)
Definition f1 : float64 := of_Z 1.
Definition f2 : float64 := of_Z 2.
Definition f3 : float64 := of_Z 3.
Definition f5 : float64 := of_Z 5.
Definition f7 : float64 := of_Z 7.
Definition fm2 : float64 := of_Z (-2).
Definition f1e3 : float64 := of_Z 1000.
Definition f1e5 : float64 := of_Z 100000.
Definition f1e6 : float64 := of_Z 1000000.

End F64.

Import F64.

(** ** Complex roots, as returned by [Polynomial.roots()] *)

Record complex := Cx { re : float64; im : float64 }.

(** [np.isreal]: the imaginary part compares equal to zero. *)
Definition isreal (c : complex) : bool := eq (im c) zero.

(** ** [sorted] on a list of floats

    Python's [sorted] is a stable sort driven by [<] only.  On the lists it
    is applied to here (no NaN: every element passed [> min_val]) [<] is a
    strict weak order and the stable result is the one built by stable
    insertion of each element in turn. *)

Fixpoint insert_sorted (x : float64) (l : list float64) : list float64 :=
  match l with
  | [] => [x]
  | y :: l' => if lt x y then x :: y :: l' else y :: insert_sorted x l'
  end.

Definition sorted (l : list float64) : list float64 :=
  fold_left (fun acc x => insert_sorted x acc) l [].

(** ** [_smallest_positive_real_root] *)

Module RootFinder.

(** [cond = np.logical_and(np.isreal(roots), np.real(roots) > min_val)] *)
Definition cond (min_val : float64) (c : complex) : bool :=
  isreal c && gt (re c) min_val.

(** [posreal = sorted(np.real(roots[cond]))] *)
Definition posreal (roots : list complex) (min_val : float64) : list float64 :=
  sorted (map re (filter (cond min_val) roots)).

(** The value of [res] before the final window check. *)
Definition candidate (roots : list complex) (min_val : float64) : float64 :=
  match roots with
  | [] => zero
  | _ :: _ =>
      match posreal roots min_val with
      | [] => zero
      | r :: _ => r
      end
  end.

Definition _smallest_positive_real_root
    (roots : list complex) (min_val max_val : float64) : float64 :=
  let res := candidate roots min_val in
  if negb (isfinite res) || lt res min_val || gt res max_val
  then nan
  else res.

End RootFinder.

Import RootFinder.


(** ** Exceptions and results *)

Inductive exn :=
| IOError (msg : string)
| KeyError
| AttributeError
| ValueError
| TypeError
| OverflowError
| MergeError
| AssertionError
| Unsupported.   (* input outside the data model of this development *)

Inductive result (A : Type) :=
| Ok (a : A)
| Raise (e : exn).
Arguments Ok {A} a.
Arguments Raise {A} e.

Definition bind {A B} (r : result A) (k : A -> result B) : result B :=
  match r with
  | Ok a => k a
  | Raise e => Raise e
  end.

Notation "x <- r ;; k" := (bind r (fun x => k))
  (at level 61, r at next level, right associativity).

(** ** int64 *)

Definition int64_min : Z := - 2 ^ 63.
Definition int64_max : Z := 2 ^ 63 - 1.
Definition in_int64 (z : Z) : bool := (int64_min <=? z) && (z <=? int64_max).

(** Two's-complement wrap-around of int64 arithmetic. *)
Definition wrap64 (z : Z) : Z := (z + 2 ^ 63) mod 2 ^ 64 - 2 ^ 63.

(** pandas' [NaT], stored as the least int64. *)
Definition NaT : Z := int64_min.

(** Cast of a float64 to int64 ([astype(np.int64)]): truncation toward zero;
    NaN, the infinities and values out of range give the least int64. *)
Definition cast_int64 (x : float64) : Z :=
  match trunc x with
  | Some z => if in_int64 z then z else int64_min
  | None => int64_min
  end.

(** ** Index objects and Series *)

Inductive Index :=
| RangeIndex (n : nat)
| Int64Index (v : list Z)
| Float64Index (v : list float64)
| TimedeltaIndex (ns : list Z).

Record Series := MkSeries { s_index : Index; s_values : list float64 }.

Definition range_values (n : nat) : list Z := map Z.of_nat (seq 0 n).

(** [pd.TimedeltaIndex(data, unit=u)] where one unit is [per_unit]
    nanoseconds.  Integers are multiples of the unit (out of the int64
    range: OverflowError); floats are multiples of the unit, the product
    truncated, NaN becoming NaT; a TimedeltaIndex is taken as it is, the unit
    playing no role. *)
Definition to_timedelta (per_unit : Z) (idx : Index) : result Index :=
  let of_ints v :=
    if forallb (fun z => in_int64 (z * per_unit)) v
    then Ok (TimedeltaIndex (map (fun z => z * per_unit) v))
    else Raise OverflowError in
  match idx with
  | RangeIndex n => of_ints (range_values n)
  | Int64Index v => of_ints v
  | Float64Index v =>
      Ok (TimedeltaIndex
            (map (fun x => if isnan x then NaT
                           else cast_int64 (mul (of_Z per_unit) x)) v))
  | TimedeltaIndex ns => Ok (TimedeltaIndex ns)
  end.

(** ** The estimators

    The numeric pipeline between the reindexing and the root searches
    (resampling, variances, logarithms, [np.polynomial.Polynomial.fit],
    [deriv], [roots]) belongs to numpy and pandas; it enters as a function
    from the reindexed series to what the root searches consume. *)

Module Allan.

(** What lines 413-438 of [plot_allan_std_dev] hand to lines 440-462. *)
Record fitted := MkFitted {
  roots_plus : list complex;    (* (pdiff + 0.5).roots() *)
  roots_zero : list complex;    (* (pdiff).roots() *)
  roots_minus : list complex;   (* (pdiff - 0.5).roots() *)
  p_at : float64 -> float64     (* p(x) *)
}.

Record noise_params := MkNoise {
  sig_rw : float64;
  sig_bi : float64;
  sig_rrw : float64;
  tau_0 : float64;
  tau_1 : float64;
  tau_2 : float64
}.

Section Estimator.

Variable pow10 : float64 -> float64.   (* 10**x *)
Variable c_bi : float64.               (* np.sqrt(np.pi/(2*np.log(2))) *)

Definition log_tau_0 (ft : fitted) : float64 :=
  _smallest_positive_real_root (roots_plus ft) (of_Z 0) (of_Z 5).

Definition log_tau_1 (ft : fitted) : float64 :=
  _smallest_positive_real_root (roots_zero ft) (log_tau_0 ft) (of_Z 5).

Definition log_tau_2 (ft : fitted) : float64 :=
  _smallest_positive_real_root (roots_minus ft) (log_tau_1 ft) (of_Z 5).

(** [tau > 0 and np.isfinite(tau)] *)
Definition found (tau : float64) : bool := gt tau (of_Z 0) && isfinite tau.

(** Lines 440-462 and the returned dict; the second component is what is
    printed. *)
Definition noise_of_fit (ft : fitted) : noise_params * list string :=
  let t0 := pow10 (log_tau_0 ft) in
  let '(s_rw, out0) :=
    if found t0
    then (mul (pow10 (p_at ft (log_tau_0 ft))) (sqrt t0), [])
    else (nan, ["failed to find tau_0"%string]) in
  let t1 := pow10 (log_tau_1 ft) in
  let '(s_bi, out1) :=
    if found t1
    then (mul (pow10 (p_at ft (log_tau_1 ft))) c_bi, [])
    else (nan, ["failed to find tau_1"%string]) in
  let t2 := pow10 (log_tau_2 ft) in
  let '(s_rrw, out2) :=
    if found t2
    then (mul (pow10 (p_at ft (log_tau_2 ft))) (sqrt (div (of_Z 3) t2)), [])
    else (nan, ["failed to find tau_2"%string]) in
  (MkNoise s_rw s_bi s_rrw t0 t1 t2, out0 ++ out1 ++ out2).

(** [plot_allan_std_dev(data)]: the caller's series object after the call,
    and the outcome.  Line 412 assigns [data.index] on the object the
    caller passed; nothing after it writes to that object. *)
Definition plot_allan_std_dev
    (fit : Series -> result fitted) (data : Series)
  : Series * result (noise_params * list string) :=
  match to_timedelta 1000000000 (s_index data) with
  | Raise e => (data, Raise e)
  | Ok idx =>
      let data' := MkSeries idx (s_values data) in
      (data', ft <- fit data' ;; Ok (noise_of_fit ft))
  end.

End Estimator.

End Allan.

Module Autocorr.

(** [plot_autocorrelation(data)]: line 501 assigns [data.index] on the
    caller's object; line 506 rebinds the local name [data] to the resampled
    copy, so the rest works on other objects.  [fit] stands for lines
    502-522 and returns [(p - 1/np.e).roots()]; the search uses the default
    window [min_val=0], [max_val=1e6]. *)
Definition plot_autocorrelation
    (fit : Series -> result (list complex)) (data : Series)
  : Series * result float64 :=
  match to_timedelta 1000000000 (s_index data) with
  | Raise e => (data, Raise e)
  | Ok idx =>
      let data' := MkSeries idx (s_values data) in
      (data', roots <- fit data' ;;
              Ok (_smallest_positive_real_root roots (of_Z 0) f1e6))
  end.

End Autocorr.

(** ** Tables

    A table ([pd.DataFrame]) is an ordered list of labelled columns and an
    index.  A column holds int64 or float64 values; a missing value is the
    float64 NaN.  Timestamps are int64 microseconds: where a [timestamp]
    column is looked up as a merge key and holds floats, the outcome is
    [Unsupported]. *)

Inductive column :=
| IntCol (v : list Z)
| FloatCol (v : list float64).

Record DataFrame := MkFrame {
  columns : list (string * column);
  index : Index
}.


Definition labels (df : DataFrame) : list string := map fst (columns df).


Definition ts_label : string := "timestamp".

(** [df[name]] (missing: KeyError) and [df.name] (missing: AttributeError);
    [missing] is the exception of the access form used.  A label carried by
    several columns selects a frame, not a series. *)
Definition get_column (missing : exn) (df : DataFrame) (name : string)
  : result column :=
  match filter (fun c => String.eqb (fst c) name) (columns df) with
  | [] => Raise missing
  | [c] => Ok (snd c)
  | _ :: _ :: _ => Raise Unsupported
  end.

Definition int_values (c : column) : result (list Z) :=
  match c with
  | IntCol v => Ok v
  | FloatCol _ => Raise Unsupported
  end.

(** [pd.TimedeltaIndex(df.timestamp*1e3, unit='ns')], one entry:
    the int64 is converted to float64, multiplied by the float [1e3], and the
    product cast to int64 nanoseconds. *)
Definition ns_of_us (t : Z) : Z := cast_int64 (mul (of_Z t) f1e3).

Definition timedelta_of_timestamps (ts : list Z) : Index :=
  TimedeltaIndex (map ns_of_us ts).

(** ** [PX4MessageDict] *)

Module PX4MessageDict.

(** A Python dict keeps its keys in insertion order. *)
Definition store := list (string * DataFrame).

Definition keys (self : store) : list string := map fst self.

(** [self[topic]] *)
Fixpoint getitem (self : store) (topic : string) : result DataFrame :=
  match self with
  | [] => Raise KeyError
  | (k, df) :: rest => if String.eqb k topic then Ok df else getitem rest topic
  end.

(** The loop body of lines 292-296: the new label of column [col]. *)
Definition new_col (topic col : string) : string :=
  if String.eqb col ts_label then col
  else ("t_" ++ topic ++ "__f_" ++ col)%string.

(** [self[topic].rename(columns=new_cols)] *)
Definition rename (topic : string) (df : DataFrame) : DataFrame :=
  MkFrame (map (fun c => (new_col topic (fst c), snd c)) (columns df))
          (index df).

(** Lines 297-299 for one topic. *)
Definition init_topic (topic : string) (raw : DataFrame) : result DataFrame :=
  let df := rename topic raw in
  c <- get_column AttributeError df ts_label ;;
  ts <- int_values c ;;
  Ok (MkFrame (columns df) (timedelta_of_timestamps ts)).

(** [PX4MessageDict(d)] *)
Fixpoint __init__ (d : list (string * DataFrame)) : result store :=
  match d with
  | [] => Ok []
  | (topic, raw) :: rest =>
      df <- init_topic topic raw ;;
      rest' <- __init__ rest ;;
      Ok ((topic, df) :: rest')
  end.

(** *** [sorted(self.keys())] *)

Fixpoint insert_key (k : string) (l : list string) : list string :=
  match l with
  | [] => [k]
  | y :: l' => if String.ltb k y then k :: y :: l' else y :: insert_key k l'
  end.

Definition sorted_keys (l : list string) : list string :=
  fold_left (fun acc k => insert_key k acc) l [].

(** *** The fixed-step timeline (lines 313-323) *)

(** [Series.min()] and [Series.max()] of an int64 column; an empty column
    gives NaN, here [None]. *)
Definition col_min (v : list Z) : option Z :=
  match v with
  | [] => None
  | x :: r => Some (fold_left Z.min r x)
  end.

Definition col_max (v : list Z) : option Z :=
  match v with
  | [] => None
  | x :: r => Some (fold_left Z.max r x)
  end.

(** [a < b] between two such values: false as soon as one is NaN. *)
Definition ts_lt (a b : option Z) : bool :=
  match a, b with
  | Some x, Some y => x <? y
  | _, _ => false
  end.

(** The loop of lines 316-322; [acc] is [None] while [ts_min] and [ts_max]
    are the Python [None]. *)
Fixpoint ts_bounds (self : store) (topics : list string)
    (acc : option (option Z * option Z))
  : result (option (option Z * option Z)) :=
  match topics with
  | [] => Ok acc
  | topic :: rest =>
      df <- getitem self topic ;;
      c <- get_column KeyError df ts_label ;;
      ts <- int_values c ;;
      let ts_t_min := col_min ts in
      let ts_t_max := col_max ts in
      let acc' :=
        match acc with
        | None => (ts_t_min, ts_t_max)
        | Some (ts_min, ts_max) =>
            (if ts_lt ts_t_min ts_min then ts_t_min else ts_min,
             if ts_lt ts_max ts_t_max then ts_t_max else ts_max)
        end in
      ts_bounds self rest (Some acc')
  end.

(** [np.arange(start, stop, step, dtype=np.int64)] with an int64 [start] and
    float [stop] and [step]: the length is [ceil((stop - start)/step)]
    computed in float64; the first two entries are [start] and
    [start + step] cast to int64, and entry [i] is the first plus [i] times
    their difference. *)
Definition np_arange_int64 (start : Z) (stop step : float64)
  : result (list Z) :=
  match ceil (div (sub stop (of_Z start)) step) with
  | None => Raise ValueError
  | Some len =>
      if len <=? 0 then Ok []
      else
        let next := cast_int64 (add (of_Z start) step) in
        let delta := wrap64 (next - start) in
        Ok (map (fun i => wrap64 (start + Z.of_nat i * delta))
                (seq 0 (Z.to_nat len)))
  end.

Definition fixed_step_timestamps (self : store) (dt : float64)
  : result (list Z) :=
  b <- ts_bounds self (sorted_keys (keys self)) None ;;
  match b with
  | None => Raise TypeError
  | Some (Some ts_min, Some ts_max) =>
      np_arange_int64 ts_min (sub (of_Z ts_max) (mul dt f1e6)) (mul dt f1e6)
  | Some _ => Raise ValueError
  end.

(** *** [pd.merge_asof(left, right, 'timestamp')] *)

Fixpoint is_sorted (l : list Z) : bool :=
  match l with
  | x :: ((y :: _) as r) => (x <=? y) && is_sorted r
  | _ => true
  end.

(** Number of leading entries of [rk] that are [<= t]: where the backward
    search stops. *)
Fixpoint asof_pos (rk : list Z) (t : Z) : nat :=
  match rk with
  | [] => O
  | k :: r => if k <=? t then S (asof_pos r t) else O
  end.

(** Row of the right table matched with key [t]: the last one whose key is
    at or before [t], if any. *)
Definition asof_backward (rk : list Z) (t : Z) : option nat :=
  match asof_pos rk t with
  | O => None
  | S j => Some j
  end.

Definition is_some {A} (o : option A) : bool :=
  match o with Some _ => true | None => false end.

(** The right column taken at the matched rows; an int64 column is kept
    int64 when every row matched and becomes float64 otherwise. *)
Definition take (c : column) (ix : list (option nat)) : column :=
  match c with
  | FloatCol v =>
      FloatCol (map (fun o => match o with
                              | Some j => nth j v nan
                              | None => nan
                              end) ix)
  | IntCol v =>
      if forallb is_some ix
      then IntCol (map (fun o => match o with
                                 | Some j => nth j v 0
                                 | None => 0
                                 end) ix)
      else FloatCol (map (fun o => match o with
                                   | Some j => of_Z (nth j v 0)
                                   | None => nan
                                   end) ix)
  end.

Definition is_key (name : string) : bool := String.eqb name ts_label.

Definition mem_label (name : string) (l : list string) : bool :=
  existsb (String.eqb name) l.

Definition value_labels (df : DataFrame) : list string :=
  filter (fun n => negb (is_key n)) (labels df).

(** A label present on both sides, the key apart, gets the suffix. *)
Definition suffixed (other : list string) (suffix name : string) : string :=
  if negb (is_key name) && mem_label name other
  then (name ++ suffix)%string else name.

Definition merge_asof (left right : DataFrame) : result DataFrame :=
  lc <- get_column KeyError left ts_label ;;
  rc <- get_column KeyError right ts_label ;;
  lk <- int_values lc ;;
  rk <- int_values rc ;;
  if negb (is_sorted lk) then Raise ValueError
  else if negb (is_sorted rk) then Raise ValueError
  else
    let ix := map (asof_backward rk) lk in
    let lcols :=
      map (fun c => (suffixed (value_labels right) "_x" (fst c), snd c))
          (columns left) in
    let rcols :=
      map (fun c => (suffixed (value_labels left) "_y" (fst c),
                     take (snd c) ix))
          (filter (fun c => negb (is_key (fst c))) (columns right)) in
    Ok (MkFrame (lcols ++ rcols) (RangeIndex (List.length lk))).

(** *** [ffill], [bfill], [np.isfinite] *)

Fixpoint ffill_from (last : option float64) (v : list float64)
  : list float64 :=
  match v with
  | [] => []
  | x :: r =>
      if isnan x
      then match last with
           | Some y => y :: ffill_from last r
           | None => x :: ffill_from None r
           end
      else x :: ffill_from (Some x) r
  end.

Definition ffill_values (v : list float64) : list float64 := ffill_from None v.

(** Backward fill: a NaN takes the next valid value, which is the head of
    the filled remainder. *)
Fixpoint bfill_values (v : list float64) : list float64 :=
  match v with
  | [] => []
  | x :: r =>
      let r' := bfill_values r in
      (if isnan x then match r' with
                       | y :: _ => y
                       | [] => x
                       end
       else x) :: r'
  end.

Definition map_float_columns (f : list float64 -> list float64)
    (df : DataFrame) : DataFrame :=
  MkFrame (map (fun c => (fst c, match snd c with
                                 | FloatCol v => FloatCol (f v)
                                 | IntCol v => IntCol v
                                 end)) (columns df))
          (index df).

Definition ffill := map_float_columns ffill_values.
Definition bfill := map_float_columns bfill_values.
Definition pad := ffill.

Definition col_finite (c : column) : bool :=
  match c with
  | IntCol _ => true
  | FloatCol v => forallb isfinite v
  end.

(** [np.all(np.isfinite(m))] *)
Definition all_finite (m : DataFrame) : bool :=
  forallb (fun c => col_finite (snd c)) (columns m).

(** *** [concat] *)

(** The loop of lines 333-337. *)
Fixpoint merge_topics (self : store) (topics : list string) (m : DataFrame)
  : result DataFrame :=
  match topics with
  | [] => Ok m
  | topic :: rest =>
      df <- getitem self topic ;;
      m' <- merge_asof m df ;;
      merge_topics self rest m'
  end.

(** [self.concat(topics, on, dt)]; [verbose] only prints and is left out. *)
Definition concat (self : store) (topics : option (list string))
    (on : option string) (dt : option float64) : result DataFrame :=
  m0 <- match dt, on with
        | Some d, _ =>
            ts <- fixed_step_timestamps self d ;;
            Ok (MkFrame [(ts_label, IntCol ts)] (RangeIndex (List.length ts)))
        | None, Some o =>
            df <- getitem self o ;;
            c <- get_column AttributeError df ts_label ;;
            Ok (MkFrame [(ts_label, c)] (index df))
        | None, None => Raise (IOError "must pass dt or on")
        end ;;
  let topics := match topics with
                | None => keys self
                | Some l => l
                end in
  m <- merge_topics self topics m0 ;;
  c <- get_column AttributeError m ts_label ;;
  ts <- int_values c ;;
  let m1 := MkFrame (columns m) (timedelta_of_timestamps ts) in
  let m2 := pad (bfill (ffill m1)) in
  if all_finite m2 then Ok m2 else Raise AssertionError.

(** *** Notions used to state the properties of [concat] *)



(** The topics that [concat] joins, in the order of the loop of line 333:
    the [topics] argument, or every key of the store. *)
Definition merge_order (self : store) (topics : option (list string))
  : list string :=
  match topics with
  | None => keys self
  | Some l => l
  end.



(** A cell that holds a value: not the missing-value marker NaN. *)
Definition valid (x : float64) : Prop := isnan x = false.

(** Lines 313-338 of [concat]: the joined table before the fills. *)
Definition joined (self : store) (topics : option (list string))
    (on : option string) (dt : option float64) : result DataFrame :=
  m0 <- match dt, on with
        | Some d, _ =>
            ts <- fixed_step_timestamps self d ;;
            Ok (MkFrame [(ts_label, IntCol ts)] (RangeIndex (List.length ts)))
        | None, Some o =>
            df <- getitem self o ;;
            c <- get_column AttributeError df ts_label ;;
            Ok (MkFrame [(ts_label, c)] (index df))
        | None, None => Raise (IOError "must pass dt or on")
        end ;;
  m <- merge_topics self (merge_order self topics) m0 ;;
  c <- get_column AttributeError m ts_label ;;
  ts <- int_values c ;;
  Ok (MkFrame (columns m) (timedelta_of_timestamps ts)).

(** An exception that comes out of a lookup or of pandas and numpy, as
    opposed to the two that [concat] raises by its own statements. *)
Definition raised_by_library (e : exn) : Prop :=
  match e with
  | IOError _ | AssertionError => False
  | _ => True
  end.


End PX4MessageDict.

(** ** [read_ulog]

    [pyulog] writes one CSV file per topic into a temporary directory and
    [pd.read_csv] parses each of them; both are outside this development.
    What the loop of lines 367-381 receives enters as [files]: for every
    file found by [sorted(glob.glob(glob_expr))], in that order, its
    [file_name] (base name without extension) and the table read from it.
    [log_name] is the base name of the log without its extension. *)

Module ReadUlog.

Import PX4MessageDict.

(** [d_col_rename[x.group()]] for a match [x] of the pattern
    [(\[|\])]: both brackets become an underscore. *)
Definition rename_char (c : ascii) : ascii :=
  if (Ascii.eqb c "["%char || Ascii.eqb c "]"%char)%bool then "_"%char else c.

(** [col_rename_pattern.sub(lambda x: d_col_rename[x.group()], col)] *)
Fixpoint col_rename (col : string) : string :=
  match col with
  | EmptyString => EmptyString
  | String c r => String (rename_char c) (col_rename r)
  end.

(** [s.startswith(pre)] *)
Fixpoint starts_with (pre s : string) : bool :=
  match pre with
  | EmptyString => true
  | String a p =>
      match s with
      | EmptyString => false
      | String b r => Ascii.eqb a b && starts_with p r
      end
  end.

(** [s.replace(old, new)] for a non-empty [old]: the occurrences of [old]
    are found from the left and do not overlap.  [skip] counts the
    characters of a found occurrence that are still to be passed over. *)
Fixpoint replace_aux (old new : string) (skip : nat) (s : string) : string :=
  match s with
  | EmptyString => EmptyString
  | String c r =>
      match skip with
      | S k => replace_aux old new k r
      | O =>
          if starts_with old s
          then (new ++ replace_aux old new (String.length old - 1) r)%string
          else String c (replace_aux old new 0 r)
      end
  end.

Definition str_replace (old new s : string) : string :=
  replace_aux old new 0 s.

(** [old in s] *)
Fixpoint occurs (old s : string) : bool :=
  starts_with old s
  || match s with
     | EmptyString => false
     | String _ r => occurs old r
     end.

(** [topic_name = file_name.replace(log_name + '_', '')] *)
Definition topic_name (log_name file_name : string) : string :=
  str_replace (log_name ++ "_") "" file_name.

(** [data_new.columns = [... for col in data_new.columns]] *)
Definition rename_csv_columns (df : DataFrame) : DataFrame :=
  MkFrame (map (fun c => (col_rename (fst c), snd c)) (columns df)) (index df).

(** [data[key] = value] on a dict: an existing key keeps its place. *)
Fixpoint dict_set {V : Type} (d : list (string * V)) (key : string) (value : V)
  : list (string * V) :=
  match d with
  | [] => [(key, value)]
  | (k, v) :: r =>
      if String.eqb k key then (k, value) :: r
      else (k, v) :: dict_set r key value
  end.

(** The dict [data] after the loop. *)
Definition csv_tables (log_name : string) (files : list (string * DataFrame))
  : list (string * DataFrame) :=
  fold_left (fun data f => dict_set data (topic_name log_name (fst f))
                                    (rename_csv_columns (snd f)))
            files [].

Definition read_ulog (log_name : string) (files : list (string * DataFrame))
  : result store :=
  __init__ (csv_tables log_name files).

End ReadUlog.

(** ** [cached_log_processing]

    The files are a dict from path to content; a content is a pickle
    written by [pickle.dump], or anything else.  [read_ulog(log,
    msg_filter)] reads the files and [processing_func] is the caller's;
    both may raise.  [verbose] only prints and is left out. *)

Module Cache.

Import PX4MessageDict ReadUlog.

Section CachedLogProcessing.

Variable V : Type.   (* what [processing_func] returns *)

Inductive content :=
| Pickle (d : V)
| Other.

Definition files := list (string * content).

Fixpoint lookup (fs : files) (path : string) : option content :=
  match fs with
  | [] => None
  | (k, c) :: r => if String.eqb k path then Some c else lookup r path
  end.

(** [os.path.exists(path)] *)
Definition exists_file (fs : files) (path : string) : bool :=
  match lookup fs path with
  | Some _ => true
  | None => false
  end.

Variable read_ulog : files -> string -> string -> result store.
Variable processing_func : store -> result V.

(** [log.replace('.ulg', '{:s}.pkl'.format(save_label))] *)
Definition save_filename (log save_label : string) : string :=
  str_replace ".ulg" (save_label ++ ".pkl") log.

(** The files after the call, and its outcome.  [pickle.load] of a content
    that is no pickle is outside this development. *)
Definition cached_log_processing (fs : files) (log msg_filter save_label : string)
    (force_processing : bool) : files * result V :=
  let path := save_filename log save_label in
  if negb force_processing && exists_file fs path
  then match lookup fs path with
       | Some (Pickle d) => (fs, Ok d)
       | _ => (fs, Raise Unsupported)
       end
  else match read_ulog fs log msg_filter with
       | Raise e => (fs, Raise e)
       | Ok d0 =>
           match processing_func d0 with
           | Raise e => (fs, Raise e)
           | Ok d => (dict_set fs path (Pickle d), Ok d)
           end
       end.

End CachedLogProcessing.

Arguments Pickle {V} d.
Arguments Other {V}.

End Cache.

(** ** [noise_analysis_sensor]

    The figure, title and legend calls only draw and are left out; the two
    fits enter as in the estimators. *)

Module NoiseAnalysis.

Import Allan PX4MessageDict.

(** [df[name]] and [df.name] as a series: the float column under that
    label, with the index of the table. *)
Definition get_series (missing : exn) (df : DataFrame) (name : string)
  : result Series :=
  c <- get_column missing df name ;;
  match c with
  | FloatCol v => Ok (MkSeries (index df) v)
  | IntCol _ => Raise Unsupported
  end.

Section Sensor.

Variable pow10 : float64 -> float64.
Variable c_bi : float64.
Variable fit_allan : Series -> result fitted.
Variable fit_corr : Series -> result (list complex).

(** [plot_autocorrelation(g, plot, **corr_args)]: the series object after
    the call and the correlation time. *)
Definition autocorr (g : Series) : result (Series * float64) :=
  tau <- snd (Autocorr.plot_autocorrelation fit_corr g) ;;
  Ok (fst (Autocorr.plot_autocorrelation fit_corr g), tau).

(** [plot_allan_std_dev(g, plot, **allan_args)]: the returned dict. *)
Definition allan (g : Series) : result noise_params :=
  res <- snd (plot_allan_std_dev pow10 c_bi fit_allan g) ;;
  Ok (fst res).

(** The keys of the dict returned by [plot_allan_std_dev], in its order,
    with their readers. *)
Definition allan_keys : list (string * (noise_params -> float64)) :=
  [("sig_rw"%string, sig_rw); ("sig_bi"%string, sig_bi);
   ("sig_rrw"%string, sig_rrw); ("tau_0"%string, tau_0);
   ("tau_1"%string, tau_1); ("tau_2"%string, tau_2)].

(** The returned dict [r], in insertion order.  The same series object
    goes to both estimators: the second one receives it as the first one
    left it. *)
Definition noise_analysis_sensor (df : DataFrame) (topic : string)
  : result (list (string * list float64)) :=
  gx <- get_series KeyError df ("t_" ++ topic ++ "__f_x") ;;
  gy <- get_series KeyError df ("t_" ++ topic ++ "__f_y") ;;
  gz <- get_series KeyError df ("t_" ++ topic ++ "__f_z") ;;
  x1 <- autocorr gx ;;
  y1 <- autocorr gy ;;
  z1 <- autocorr gz ;;
  res1 <- allan (fst x1) ;;
  res2 <- allan (fst y1) ;;
  res3 <- allan (fst z1) ;;
  Ok (((topic ++ "_randomwalk_correlation_time")%string,
       [snd x1; snd y1; snd z1])
      :: map (fun kf => ((topic ++ "_" ++ fst kf)%string,
                         [snd kf res1; snd kf res2; snd kf res3]))
             allan_keys).

End Sensor.

End NoiseAnalysis.

(** ** [series_quat2euler], [angle_wrap], [compute_data] and
    [estimator_analysis]

    [tf.quat2euler], the sine, the arcsine, [Series.mean], [Series.var] and
    [np.rad2deg] belong to the libraries and enter as functions. *)

Module ComputeData.

Import PX4MessageDict NoiseAnalysis.

Definition NamedSeries : Type := string * Series.

Definition msg : string := "t_vehicle_attitude_0".
Definition msg_gt : string := "t_vehicle_attitude_groundtruth_0".

Section Attitude.

(** [tf.quat2euler([q0, q1, q2, q3])]: the angles about z, y and x. *)
Variable quat2euler :
  float64 -> float64 -> float64 -> float64 -> float64 * float64 * float64.
Variable sin : float64 -> float64.
Variable arcsin : float64 -> float64.

Definition angle_wrap (x : float64) : float64 := arcsin (sin x).

(** One row per step of [zip(q0, q1, q2, q3)]. *)
Fixpoint quat_rows (q0 q1 q2 q3 : list float64)
  : list (float64 * float64 * float64) :=
  match q0, q1, q2, q3 with
  | a :: r0, b :: r1, c :: r2, d :: r3 =>
      quat2euler a b c d :: quat_rows r0 r1 r2 r3
  | _, _, _, _ => []
  end.

(** The three series [(roll, pitch, yaw)].  Unpacking the transposed array
    into three names raises [ValueError] when there is no row; so does
    [pd.Series] when the data and the index differ in length. *)
Definition series_quat2euler (q0 q1 q2 q3 : Series) (msg_name : string)
  : result (NamedSeries * NamedSeries * NamedSeries) :=
  let rows := quat_rows (s_values q0) (s_values q1) (s_values q2)
                        (s_values q3) in
  match rows with
  | [] => Raise ValueError
  | _ :: _ =>
      if Nat.eqb (List.length rows) (List.length (s_values q0))
      then
        let yaw := map (fun r => fst (fst r)) rows in
        let pitch := map (fun r => snd (fst r)) rows in
        let roll := map (fun r => snd r) rows in
        Ok (((msg_name ++ "__f_roll")%string, MkSeries (s_index q0) roll),
            ((msg_name ++ "__f_pitch")%string, MkSeries (s_index q0) pitch),
            ((msg_name ++ "__f_yaw")%string, MkSeries (s_index q0) yaw))
      else Raise ValueError
  end.

(** The four quaternion columns of message [m], then [series_quat2euler]. *)
Definition euler_of (df : DataFrame) (m : string)
  : result (NamedSeries * NamedSeries * NamedSeries) :=
  q0 <- get_series AttributeError df (m ++ "__f_q_0_") ;;
  q1 <- get_series AttributeError df (m ++ "__f_q_1_") ;;
  q2 <- get_series AttributeError df (m ++ "__f_q_2_") ;;
  q3 <- get_series AttributeError df (m ++ "__f_q_3_") ;;
  series_quat2euler q0 q1 q2 q3 m.

(** [pd.Series(angle_wrap(a - b), name=name)] for two series with the same
    index. *)
Fixpoint wrapped_differences (a b : list float64) : list float64 :=
  match a, b with
  | x :: ra, y :: rb => angle_wrap (sub x y) :: wrapped_differences ra rb
  | _, _ => []
  end.

Definition error_series (name : string) (a b : NamedSeries) : NamedSeries :=
  (name, MkSeries (s_index (snd a))
                  (wrapped_differences (s_values (snd a)) (s_values (snd b)))).

(** The body of the [try] of lines 79-91: what it appends to [series]. *)
Definition groundtruth_series (df : DataFrame)
    (rpy : NamedSeries * NamedSeries * NamedSeries)
  : result (list NamedSeries) :=
  gt <- euler_of df msg_gt ;;
  let '(roll, pitch, yaw) := rpy in
  let '(roll_gt, pitch_gt, yaw_gt) := gt in
  Ok [roll_gt; pitch_gt; yaw_gt;
      error_series (msg ++ "__f_roll_error") roll roll_gt;
      error_series (msg ++ "__f_pitch_error") pitch pitch_gt;
      error_series (msg ++ "__f_yaw_error") yaw yaw_gt].

Definition as_column (s : NamedSeries) : string * column :=
  (fst s, FloatCol (s_values (snd s))).

(** [compute_data(df)]: the returned table and the exception that the
    [except] branch printed, if any. *)
Definition compute_data (df : DataFrame) : result (DataFrame * option exn) :=
  rpy <- euler_of df msg ;;
  let '(roll, pitch, yaw) := rpy in
  let '(more, printed) :=
    match groundtruth_series df rpy with
    | Ok l => (l, None)
    | Raise ex => ([], Some ex)
    end in
  Ok (MkFrame (columns df ++ map as_column ([roll; pitch; yaw] ++ more))
              (index df),
      printed).

End Attitude.

Section Analysis.

Variable mean : list float64 -> float64.       (* Series.mean() *)
Variable var : list float64 -> float64.        (* Series.var() *)
Variable rad2deg : float64 -> float64.         (* np.rad2deg *)

(** The columns that the plots read, in the order in which they read them;
    a plot does nothing else that is kept here. *)
Definition plot_altitude_columns (plot_groundtruth : bool) : list string :=
  ["t_vehicle_global_position_0__f_alt"%string]
  ++ (if plot_groundtruth
      then ["t_vehicle_global_position_groundtruth_0__f_alt"%string]
      else []).

Definition plot_euler_columns (plot_groundtruth : bool) : list string :=
  flat_map (fun a =>
              (msg ++ "__f_" ++ a)%string
              :: (if plot_groundtruth
                  then [(msg_gt ++ "__f_" ++ a)%string] else []))
           ["roll"%string; "pitch"%string; "yaw"%string].

Definition plot_euler_error_columns : list string :=
  [(msg ++ "__f_roll_error")%string; (msg ++ "__f_pitch_error")%string;
   (msg ++ "__f_yaw_error")%string].

Definition plot_local_position_columns (plot_groundtruth : bool)
  : list string :=
  ["t_vehicle_local_position_0__f_x"%string;
   "t_vehicle_local_position_0__f_y"%string]
  ++ (if plot_groundtruth
      then ["t_vehicle_local_position_groundtruth_0__f_x"%string;
            "t_vehicle_local_position_groundtruth_0__f_y"%string]
      else []).

Definition plot_velocity_columns (plot_groundtruth : bool) : list string :=
  flat_map (fun a =>
              ("t_vehicle_global_position_0__f_" ++ a)%string
              :: (if plot_groundtruth
                  then [("t_vehicle_global_position_groundtruth_0__f_" ++ a)%string]
                  else []))
           ["vel_n"%string; "vel_e"%string; "vel_d"%string].

(** Reading the columns [names] of [df] in turn. *)
Fixpoint read_columns (df : DataFrame) (names : list string) : result unit :=
  match names with
  | [] => Ok tt
  | n :: rest => _ <- get_column AttributeError df n ;; read_columns df rest
  end.

(** [estimator_analysis(df, plot)]: the returned dict, in the order of its
    literal. *)
Definition estimator_analysis (df : DataFrame) (plot : bool)
  : result (list (string * float64)) :=
  r1 <- get_series AttributeError df (msg ++ "__f_roll_error") ;;
  p1 <- get_series AttributeError df (msg ++ "__f_pitch_error") ;;
  y1 <- get_series AttributeError df (msg ++ "__f_yaw_error") ;;
  r2 <- get_series AttributeError df (msg ++ "__f_roll_error") ;;
  p2 <- get_series AttributeError df (msg ++ "__f_pitch_error") ;;
  y2 <- get_series AttributeError df (msg ++ "__f_yaw_error") ;;
  let data :=
    [("roll_error_mean"%string, rad2deg (mean (s_values r1)));
     ("pitch_error_mean"%string, rad2deg (mean (s_values p1)));
     ("yaw_error_mean"%string, rad2deg (mean (s_values y1)));
     ("roll_error_std"%string, rad2deg (sqrt (var (s_values r2))));
     ("pitch_error_std"%string, rad2deg (sqrt (var (s_values p2))));
     ("yaw_error_std"%string, rad2deg (sqrt (var (s_values y2))))] in
  if plot
  then
    _ <- read_columns df (plot_altitude_columns true
                          ++ plot_euler_columns true
                          ++ plot_euler_error_columns
                          ++ plot_local_position_columns true
                          ++ plot_velocity_columns true) ;;
    Ok data
  else Ok data.

End Analysis.

End ComputeData.

(** ** The order of float64 values

    Every value that is not NaN gets a rank, a triple compared
    lexicographically; the comparison of two such values is the comparison
    of their ranks. *)

Module F64Order.

Definition rank (x : float64) : Z * Z * Z :=
  match x with
  | S754_infinity true => (-2, 0, 0)
  | S754_finite true m e => (-1, - e, - Zpos m)
  | S754_zero _ => (0, 0, 0)
  | S754_nan => (0, 0, 0)
  | S754_finite false m e => (1, e, Zpos m)
  | S754_infinity false => (2, 0, 0)
  end.

Definition rlt (a b : Z * Z * Z) : Prop :=
  let '(a1, a2, a3) := a in
  let '(b1, b2, b3) := b in
  a1 < b1 \/ (a1 = b1 /\ (a2 < b2 \/ (a2 = b2 /\ a3 < b3))).

End F64Order.

(** ** Data for the examples *)

Module Samples.

Import Allan PX4MessageDict NoiseAnalysis ComputeData.

(** A monotone step function that agrees with [10**x] at the integers
    0..5: ten to the integer part of [x], kept within [1, 1e5].  It stands
    for [10**x] where an example has to be run. *)
Definition pow10_floor (x : float64) : float64 :=
  if isnan x then nan
  else if lt x f1 then f1
  else if lt x f2 then of_Z 10
  else if lt x f3 then of_Z 100
  else if lt x (of_Z 4) then of_Z 1000
  else if lt x f5 then of_Z 10000
  else f1e5.

(** The roots [{-2, 0.1+0i, 0.1+1e-12i, 3}]. *)
Definition roots8 : list complex :=
  [Cx fm2 zero; Cx f0_1 zero; Cx f0_1 f1em12; Cx f3 zero].

(** Slope crossings at 1, 2 and 3 log-seconds. *)
Definition ft_ordered : fitted :=
  MkFitted [Cx f1 zero] [Cx f2 zero] [Cx f3 zero] (fun x => x).

(** The first crossing lies beyond the window, at 7 log-seconds. *)
Definition ft_far : fitted :=
  MkFitted [Cx f7 zero] [Cx f2 zero] [Cx f3 zero] (fun x => x).

(** A series indexed 0, 1, 2 and one indexed by time deltas. *)
Definition series_range : Series := MkSeries (RangeIndex 3) [f1; f2; f3].
Definition series_td : Series :=
  MkSeries (TimedeltaIndex [0; 1000000000; 2000000000]) [f1; f2; f3].

(** Topic [A] sampled at 0, 10, 20, 30 and topic [B] at 10 and 25. *)
Definition table_A : DataFrame :=
  MkFrame [("timestamp"%string, IntCol [0; 10; 20; 30]);
           ("x"%string, FloatCol [f1; f2; f3; f5])] (RangeIndex 4).

Definition table_B : DataFrame :=
  MkFrame [("timestamp"%string, IntCol [10; 25]);
           ("y"%string, FloatCol [f7; f0_5])] (RangeIndex 2).

Definition raw_AB : list (string * DataFrame) :=
  [("A"%string, table_A); ("B"%string, table_B)].

Definition store_of (d : list (string * DataFrame)) : store :=
  match __init__ d with
  | Ok s => s
  | Raise _ => []
  end.

(** A topic [C] whose only sample comes after every sample of [A]. *)
Definition table_C : DataFrame :=
  MkFrame [("timestamp"%string, IntCol [100]);
           ("z"%string, FloatCol [f1])] (RangeIndex 1).

Definition raw_AC : list (string * DataFrame) :=
  [("A"%string, table_A); ("C"%string, table_C)].

(** The table that a call returned, the empty table if it raised. *)
Definition table_of (r : result DataFrame) : DataFrame :=
  match r with
  | Ok m => m
  | Raise _ => MkFrame [] (RangeIndex 0)
  end.

(** Both stores joined on the timestamps of [A]. *)
Definition merged_AB : DataFrame :=
  table_of (concat (store_of raw_AB) None (Some "A"%string) None).

(** A merged table with the three axes of a topic [gyro]. *)
Definition table_gyro : DataFrame :=
  MkFrame [("timestamp"%string, IntCol [0; 1; 2]);
           ("t_gyro__f_x"%string, FloatCol [f1; f2; f3]);
           ("t_gyro__f_y"%string, FloatCol [f2; f3; f5]);
           ("t_gyro__f_z"%string, FloatCol [f3; f5; f7])]
          (TimedeltaIndex [0; 1000; 2000]).

(** A table with the attitude quaternion, without and with the ground
    truth. *)
Definition table_att : DataFrame :=
  MkFrame [("timestamp"%string, IntCol [0; 1]);
           ("t_vehicle_attitude_0__f_q_0_"%string, FloatCol [f1; f1]);
           ("t_vehicle_attitude_0__f_q_1_"%string, FloatCol [zero; zero]);
           ("t_vehicle_attitude_0__f_q_2_"%string, FloatCol [zero; zero]);
           ("t_vehicle_attitude_0__f_q_3_"%string, FloatCol [zero; zero])]
          (TimedeltaIndex [0; 1000]).

Definition table_att_gt : DataFrame :=
  MkFrame (columns table_att
           ++ [("t_vehicle_attitude_groundtruth_0__f_q_0_"%string,
                FloatCol [f1; f1]);
               ("t_vehicle_attitude_groundtruth_0__f_q_1_"%string,
                FloatCol [zero; zero]);
               ("t_vehicle_attitude_groundtruth_0__f_q_2_"%string,
                FloatCol [zero; zero]);
               ("t_vehicle_attitude_groundtruth_0__f_q_3_"%string,
                FloatCol [zero; zero])])
          (TimedeltaIndex [0; 1000]).

(** Stand-ins for the library functions where an example has to be run:
    the last three components of the quaternion, and the identity. *)
Definition quat_tail (q0 q1 q2 q3 : float64) : float64 * float64 * float64 :=
  (q3, q2, q1).
Definition same (x : float64) : float64 := x.
Definition first_or_nan (v : list float64) : float64 := hd nan v.

(** The angles and the computed table of [table_att]. *)
Definition no_series : NamedSeries := (""%string, MkSeries (RangeIndex 0) []).

Definition rpy_att : NamedSeries * NamedSeries * NamedSeries :=
  match euler_of quat_tail table_att msg with
  | Ok r => r
  | Raise _ => (no_series, no_series, no_series)
  end.

Definition computed_att : DataFrame :=
  match compute_data quat_tail same same table_att with
  | Ok r => fst r
  | Raise _ => table_att
  end.


End Samples.


(** * The order of float64 values *)

Module F64OrderFacts.

Import F64Order.

Lemma compare_rank (x y : float64) :
  isnan x = false -> isnan y = false ->
  match SFcompare x y with
  | Some Lt => rlt (rank x) (rank y)
  | Some Eq => rank x = rank y
  | Some Gt => rlt (rank y) (rank x)
  | None => False
  end.
Proof.
  destruct x as [sx | sx | | sx mx ex], y as [sy | sy | | sy my ey];
    simpl; try discriminate; intros _ _;
    try (destruct sx); try (destruct sy); simpl; try reflexivity; try lia.
  - destruct (Z.compare_spec ex ey) as [He | He | He]; simpl; try lia.
    subst. change (Pos.compare_cont Eq mx my) with (Pos.compare mx my).
    destruct (Pos.compare_spec mx my) as [Hm | Hm | Hm]; simpl;
      [subst; reflexivity | lia | lia].
  - destruct (Z.compare_spec ex ey) as [He | He | He]; simpl; try lia.
    subst. change (Pos.compare_cont Eq mx my) with (Pos.compare mx my).
    destruct (Pos.compare_spec mx my) as [Hm | Hm | Hm]; simpl;
      [subst; reflexivity | lia | lia].
Qed.


Lemma nan_compare_l (y : float64) : SFcompare S754_nan y = None.
Proof. reflexivity. Qed.

Lemma nan_compare_r (x : float64) : SFcompare x S754_nan = None.
Proof. destruct x; reflexivity. Qed.

Lemma nan_compare_r' (x : float64) : SFltb S754_nan x = false.
Proof. reflexivity. Qed.

Lemma isnan_true (x : float64) : isnan x = true -> x = S754_nan.
Proof. destruct x; simpl; congruence. Qed.

Lemma rlt_asym a b : rlt a b -> rlt b a -> False.
Proof. destruct a as [[a1 a2] a3], b as [[b1 b2] b3]; simpl; lia. Qed.

Lemma rlt_irrefl a : rlt a a -> False.
Proof. destruct a as [[a1 a2] a3]; simpl; lia. Qed.

Lemma rlt_trans a b c : rlt a b -> rlt b c -> rlt a c.
Proof.
  destruct a as [[a1 a2] a3], b as [[b1 b2] b3], c as [[c1 c2] c3]; simpl; lia.
Qed.

Lemma rlt_total a b : rlt a b \/ a = b \/ rlt b a.
Proof.
  destruct a as [[a1 a2] a3], b as [[b1 b2] b3]; simpl.
  destruct (Z.lt_total a1 b1) as [H | [H | H]]; [lia | | lia].
  destruct (Z.lt_total a2 b2) as [H2 | [H2 | H2]]; [lia | | lia].
  destruct (Z.lt_total a3 b3) as [H3 | [H3 | H3]]; [lia | | lia].
  subst. right. left. reflexivity.
Qed.

Lemma lt_iff (x y : float64) :
  lt x y = true <->
  isnan x = false /\ isnan y = false /\ rlt (rank x) (rank y).
Proof.
  unfold lt, SFltb.
  destruct (isnan x) eqn:Hx.
  { apply isnan_true in Hx; subst. simpl. intuition discriminate. }
  destruct (isnan y) eqn:Hy.
  { apply isnan_true in Hy; subst. rewrite nan_compare_r.
    intuition discriminate. }
  pose proof (compare_rank x y Hx Hy) as H.
  destruct (SFcompare x y) as [[ | | ] | ]; split; intros; try tauto;
    try discriminate.
  - destruct H0 as (_ & _ & H0). rewrite H in H0.
    exfalso; eapply rlt_irrefl; eauto.
  - destruct H0 as (_ & _ & H0). exfalso; eapply rlt_asym; eauto.
Qed.

Lemma le_iff (x y : float64) :
  le x y = true <->
  isnan x = false /\ isnan y = false /\
  (rlt (rank x) (rank y) \/ rank x = rank y).
Proof.
  unfold le, SFleb.
  destruct (isnan x) eqn:Hx.
  { apply isnan_true in Hx; subst. simpl. intuition discriminate. }
  destruct (isnan y) eqn:Hy.
  { apply isnan_true in Hy; subst. rewrite nan_compare_r.
    intuition discriminate. }
  pose proof (compare_rank x y Hx Hy) as H.
  destruct (SFcompare x y) as [[ | | ] | ]; split; intros; try tauto;
    try discriminate.
  destruct H0 as (_ & _ & [H0 | H0]).
  - exfalso; eapply rlt_asym; eauto.
  - rewrite H0 in H. exfalso; eapply rlt_irrefl; eauto.
Qed.

Lemma lt_nonnan x y : lt x y = true -> isnan x = false /\ isnan y = false.
Proof. intros H; apply lt_iff in H; tauto. Qed.

Lemma lt_irrefl x : lt x x = false.
Proof.
  destruct (lt x x) eqn:H; [ | reflexivity].
  apply lt_iff in H. destruct H as (_ & _ & H).
  exfalso; eapply rlt_irrefl; eauto.
Qed.

Lemma lt_trans x y z : lt x y = true -> lt y z = true -> lt x z = true.
Proof.
  intros H1 H2. apply lt_iff in H1, H2. apply lt_iff.
  destruct H1 as (? & ? & ?), H2 as (? & ? & ?).
  repeat split; auto. eapply rlt_trans; eauto.
Qed.

Lemma lt_le x y : lt x y = true -> le x y = true.
Proof. intros H. apply lt_iff in H. apply le_iff. tauto. Qed.

Lemma le_refl x : isnan x = false -> le x x = true.
Proof. intros H. apply le_iff. auto. Qed.

Lemma le_trans x y z : le x y = true -> le y z = true -> le x z = true.
Proof.
  intros H1 H2. apply le_iff in H1, H2. apply le_iff.
  destruct H1 as (? & ? & H1), H2 as (? & ? & H2).
  repeat split; auto.
  destruct H1 as [H1 | H1], H2 as [H2 | H2].
  - left; eapply rlt_trans; eauto.
  - left; rewrite <- H2; auto.
  - left; rewrite H1; auto.
  - right; congruence.
Qed.

Lemma le_of_not_lt x y :
  isnan x = false -> isnan y = false -> lt x y = false -> le y x = true.
Proof.
  intros Hx Hy H. apply le_iff. repeat split; auto.
  destruct (rlt_total (rank x) (rank y)) as [Hr | [Hr | Hr]]; auto.
  assert (lt x y = true) by (apply lt_iff; auto). congruence.
Qed.

Lemma le_lt_trans x y z : le x y = true -> lt y z = true -> lt x z = true.
Proof.
  intros H1 H2. apply le_iff in H1. apply lt_iff in H2. apply lt_iff.
  destruct H1 as (? & ? & H1), H2 as (? & ? & H2).
  repeat split; auto.
  destruct H1 as [H1 | H1].
  - eapply rlt_trans; eauto.
  - rewrite H1; auto.
Qed.

Lemma lt_le_trans x y z : lt x y = true -> le y z = true -> lt x z = true.
Proof.
  intros H1 H2. apply lt_iff in H1. apply le_iff in H2. apply lt_iff.
  destruct H1 as (? & ? & H1), H2 as (? & ? & H2).
  repeat split; auto.
  destruct H2 as [H2 | H2].
  - eapply rlt_trans; eauto.
  - rewrite <- H2; auto.
Qed.

Lemma isfinite_nonnan x : isfinite x = true -> isnan x = false.
Proof. destruct x; simpl; congruence. Qed.

End F64OrderFacts.

Import F64Order F64OrderFacts.

(** * Facts on [sorted] and on the root search *)

Module RootFinderFacts.

Lemma insert_sorted_head_min (seen acc : list float64) (x : float64) :
  match acc with
  | [] => seen = []
  | h :: _ => In h seen /\ forall y, In y seen -> lt y h = false
  end ->
  match insert_sorted x acc with
  | [] => False
  | h :: _ => In h (seen ++ [x]) /\ forall y, In y (seen ++ [x]) -> lt y h = false
  end.
Proof.
  destruct acc as [ | h t]; simpl.
  - intros ->. simpl. split; [auto | ].
    intros y [<- | []]. apply lt_irrefl.
  - intros [Hin Hmin]. destruct (lt x h) eqn:Hxh.
    + split; [apply in_or_app; right; left; reflexivity | ].
      intros y Hy. apply in_app_or in Hy. destruct Hy as [Hy | [<- | []]].
      * destruct (lt y x) eqn:Hyx; [ | reflexivity].
        pose proof (Hmin y Hy) as Hyh.
        rewrite (lt_trans _ _ _ Hyx Hxh) in Hyh. discriminate.
      * apply lt_irrefl.
    + split; [apply in_or_app; left; exact Hin | ].
      intros y Hy. apply in_app_or in Hy. destruct Hy as [Hy | [<- | []]].
      * auto.
      * exact Hxh.
Qed.

Lemma fold_insert_head_min (l seen acc : list float64) :
  match acc with
  | [] => seen = []
  | h :: _ => In h seen /\ forall y, In y seen -> lt y h = false
  end ->
  match fold_left (fun a x => insert_sorted x a) l acc with
  | [] => seen ++ l = []
  | h :: _ => In h (seen ++ l) /\ forall y, In y (seen ++ l) -> lt y h = false
  end.
Proof.
  revert seen acc. induction l as [ | x l IH]; intros seen acc H; simpl.
  - rewrite app_nil_r. exact H.
  - specialize (IH (seen ++ [x]) (insert_sorted x acc)).
    rewrite <- app_assoc in IH. simpl in IH. apply IH.
    pose proof (insert_sorted_head_min seen acc x H) as H'.
    destruct (insert_sorted x acc); [contradiction | exact H'].
Qed.

(** The head of [sorted l] is an element of [l] below which no element of
    [l] lies; [sorted l] is empty only when [l] is. *)
Lemma sorted_head (l : list float64) :
  match sorted l with
  | [] => l = []
  | h :: _ => In h l /\ forall y, In y l -> lt y h = false
  end.
Proof.
  exact (fold_insert_head_min l [] [] eq_refl).
Qed.

Lemma candidate_cases (roots : list complex) (min_val : float64) :
  (candidate roots min_val = zero /\ filter (cond min_val) roots = [])
  \/ exists c, In c roots /\ cond min_val c = true
               /\ candidate roots min_val = re c
               /\ forall c', In c' roots -> cond min_val c' = true ->
                             lt (re c') (re c) = false.
Proof.
  unfold candidate, posreal.
  destruct roots as [ | c0 roots0]; [left; split; reflexivity | ].
  set (roots := c0 :: roots0).
  pose proof (sorted_head (map re (filter (cond min_val) roots))) as H.
  destruct (sorted (map re (filter (cond min_val) roots))) as [ | h t].
  - left. split; [reflexivity | ].
    destruct (filter (cond min_val) roots); [reflexivity | discriminate].
  - right. destruct H as [Hin Hmin].
    apply in_map_iff in Hin. destruct Hin as (c & Hc & Hcin).
    apply filter_In in Hcin. destruct Hcin as [Hcin Hcond].
    exists c. repeat split; auto.
    intros c' Hc' Hcond'. rewrite Hc. apply Hmin.
    apply in_map. apply filter_In. auto.
Qed.

(** What a call can return: NaN, or the default [0] when nothing passed the
    filter, or the least real part among the roots that passed it. *)
Lemma root_cases (roots : list complex) (min_val max_val : float64) :
  let r := _smallest_positive_real_root roots min_val max_val in
  r = nan
  \/ (r = zero /\ filter (cond min_val) roots = []
      /\ lt zero min_val = false /\ gt zero max_val = false)
  \/ exists c, In c roots /\ isreal c = true /\ gt (re c) min_val = true
               /\ r = re c /\ isfinite r = true /\ gt r max_val = false
               /\ forall c', In c' roots -> cond min_val c' = true ->
                             lt (re c') r = false.
Proof.
  unfold _smallest_positive_real_root.
  destruct (candidate_cases roots min_val) as [[Hz Hnil] | (c & Hin & Hc & Hr & Hmin)].
  - rewrite Hz. simpl.
    destruct (lt zero min_val) eqn:H1; simpl; [left; reflexivity | ].
    destruct (gt zero max_val) eqn:H2; simpl; [left; reflexivity | ].
    right; left. auto.
  - rewrite Hr.
    destruct (isfinite (re c)) eqn:Hf; simpl; [ | left; reflexivity].
    destruct (lt (re c) min_val) eqn:H1; simpl; [left; reflexivity | ].
    destruct (gt (re c) max_val) eqn:H2; simpl; [left; reflexivity | ].
    right; right. exists c.
    unfold cond in Hc. apply andb_true_iff in Hc. destruct Hc as [Hre Hgt].
    repeat split; auto.
Qed.

(** A result that is not NaN lies in the window, as soon as the lower bound
    is NaN or not negative. *)
Lemma root_in_window (roots : list complex) (min_val max_val : float64) :
  isnan max_val = false ->
  isnan min_val = true \/ le zero min_val = true ->
  let r := _smallest_positive_real_root roots min_val max_val in
  isnan r = true \/ (le zero r = true /\ le r max_val = true).
Proof.
  intros Hmax Hmin r.
  destruct (root_cases roots min_val max_val)
    as [Hr | [(Hr & _ & _ & Hgt) | (c & _ & _ & Hgt & Hr & Hf & Hmx & _)]];
    fold r in Hr; rewrite Hr in *.
  - left; reflexivity.
  - right. split; [reflexivity | ].
    apply le_of_not_lt; auto.
  - right. rewrite <- Hr in *. split.
    + destruct Hmin as [Hn | Hle].
      * unfold gt in Hgt. apply lt_nonnan in Hgt. destruct Hgt; congruence.
      * apply lt_le. eapply le_lt_trans; eauto.
    + apply le_of_not_lt; auto. apply isfinite_nonnan; auto.
Qed.

End RootFinderFacts.

Import RootFinderFacts.

(** * The root search: claims C1, C8, C2, C10 *)

Module RootFinderClaims.

Import Samples Allan.

(** C1 (the code departs from the claim).  With no root at all, and with
    the single root [-2] that fails the filter, the search over the window
    [0, 5] returns the number [0], not NaN: the initial value [res = 0]
    passes the window check [res < min_val or res > max_val].  The
    correlation time of a fit without roots is reported as [0] as well. *)
Theorem C1_default_zero_is_returned :
  _smallest_positive_real_root [] (of_Z 0) (of_Z 5) = zero
  /\ filter (cond (of_Z 0)) [Cx fm2 zero] = []
  /\ _smallest_positive_real_root [Cx fm2 zero] (of_Z 0) (of_Z 5) = zero
  /\ isnan zero = false
  /\ snd (Autocorr.plot_autocorrelation (fun _ => Ok []) series_td) = Ok zero
  /\ noise_of_fit pow10_floor f1 (MkFitted [] [] [] (fun x => x))
     = (MkNoise f1 f1 (sqrt (of_Z 3)) f1 f1 f1, []).
Proof.
  repeat split; vm_compute; reflexivity.
Qed.

(** C8, as the claim states it, fails: the root [0.1+1e-12i] does not pass
    the filter ([np.isreal] asks for an imaginary part equal to zero), and
    among the roots [{0.1+1e-12i, 3}] the search returns [3]. *)
Lemma C8_near_zero_imaginary_part_is_not_real :
  isreal (Cx f0_1 f1em12) = false
  /\ cond (of_Z 0) (Cx f0_1 f1em12) = false
  /\ _smallest_positive_real_root [Cx f0_1 f1em12; Cx f3 zero] (of_Z 0) (of_Z 5)
     = f3.
Proof.
  repeat split; vm_compute; reflexivity.
Qed.

(** C8, amended.  On the roots [{-2, 0.1+0i, 0.1+1e-12i, 3}] with window
    [0, 5] the search returns [0.1], the real part of the root [0.1+0i].
    In general, when some root has an imaginary part equal to zero and a
    real part above [min_val], the result is NaN or the real part of such
    a root, and no such root has a smaller real part. *)
Theorem C8_smallest_exactly_real_root :
  _smallest_positive_real_root roots8 (of_Z 0) (of_Z 5) = f0_1
  /\ forall (roots : list complex) (min_val max_val : float64) (c : complex),
       In c roots -> isreal c = true -> gt (re c) min_val = true ->
       let r := _smallest_positive_real_root roots min_val max_val in
       isnan r = true
       \/ ((exists c', In c' roots /\ isreal c' = true
                       /\ gt (re c') min_val = true /\ re c' = r)
           /\ le r (re c) = true
           /\ forall c', In c' roots -> isreal c' = true ->
                         gt (re c') min_val = true -> lt (re c') r = false).
Proof.
  split; [vm_compute; reflexivity | ].
  intros roots min_val max_val c Hin Hre Hgt r.
  assert (Hc : cond min_val c = true)
    by (unfold cond; rewrite Hre, Hgt; reflexivity).
  destruct (root_cases roots min_val max_val)
    as [Hr | [(_ & Hnil & _) | (c' & Hin' & Hre' & Hgt' & Hr & Hf & _ & Hmin)]].
  - left. fold r in Hr. rewrite Hr. reflexivity.
  - exfalso.
    assert (H : In c (filter (cond min_val) roots))
      by (apply filter_In; auto).
    rewrite Hnil in H. exact H.
  - right. fold r in Hr, Hf, Hmin. split; [ | split].
    + exists c'. auto.
    + apply F64OrderFacts.le_of_not_lt.
      * unfold gt in Hgt. apply F64OrderFacts.lt_nonnan in Hgt. tauto.
      * apply F64OrderFacts.isfinite_nonnan; auto.
      * apply Hmin; auto.
    + intros c2 Hin2 Hre2 Hgt2. apply Hmin; auto.
      unfold cond. rewrite Hre2, Hgt2. reflexivity.
Qed.

Lemma C8_smallest_exactly_real_root_witness :
  let r := _smallest_positive_real_root roots8 (of_Z 0) (of_Z 5) in
  isnan r = true
  \/ ((exists c', In c' roots8 /\ isreal c' = true
                  /\ gt (re c') (of_Z 0) = true /\ re c' = r)
      /\ le r (re (Cx f3 zero)) = true
      /\ forall c', In c' roots8 -> isreal c' = true ->
                    gt (re c') (of_Z 0) = true -> lt (re c') r = false).
Proof.
  apply (proj2 C8_smallest_exactly_real_root roots8 (of_Z 0) (of_Z 5)
               (Cx f3 zero)).
  - simpl; auto.
  - vm_compute; reflexivity.
  - vm_compute; reflexivity.
Defined.

End RootFinderClaims.

(** * The three chained searches of [plot_allan_std_dev]: claims C2, C10 *)

Module AllanClaims.

Import Samples Allan F64OrderFacts.

Lemma noise_of_fit_taus (pow10 : float64 -> float64) (c_bi : float64)
    (ft : fitted) :
  tau_0 (fst (noise_of_fit pow10 c_bi ft)) = pow10 (log_tau_0 ft)
  /\ tau_1 (fst (noise_of_fit pow10 c_bi ft)) = pow10 (log_tau_1 ft)
  /\ tau_2 (fst (noise_of_fit pow10 c_bi ft)) = pow10 (log_tau_2 ft).
Proof.
  unfold noise_of_fit.
  destruct (found (pow10 (log_tau_0 ft)));
    destruct (found (pow10 (log_tau_1 ft)));
    destruct (found (pow10 (log_tau_2 ft))); simpl; auto.
Qed.

(** A NaN lower bound lets no root pass the filter. *)
Lemma nan_bound_filters_all (roots : list complex) :
  filter (cond nan) roots = [].
Proof.
  induction roots as [ | c roots IH]; simpl; [reflexivity | ].
  unfold cond at 1. unfold gt, lt, nan. rewrite nan_compare_r'.
  rewrite andb_false_r. exact IH.
Qed.

(** A result taken from the roots lies strictly above the lower bound and
    not above the upper one. *)
Lemma selected_root_in_window (roots : list complex) (min_val max_val : float64) :
  let r := _smallest_positive_real_root roots min_val max_val in
  isnan r = false -> filter (cond min_val) roots <> [] ->
  isnan max_val = false ->
  lt min_val r = true /\ le r max_val = true
  /\ exists c, In c roots /\ isreal c = true /\ re c = r.
Proof.
  intros r Hr Hne Hmax.
  destruct (root_cases roots min_val max_val)
    as [H | [(_ & Hnil & _) | (c & Hin & Hre & Hgt & H & Hf & Hmx & _)]].
  - fold r in H. rewrite H in Hr. discriminate.
  - contradiction.
  - fold r in H, Hf, Hmx. rewrite <- H in Hgt. repeat split.
    + exact Hgt.
    + apply le_of_not_lt; auto.
    + exists c. auto.
Qed.

(** C2, as the claim states it, fails.  When the smallest qualifying root
    of the first search lies beyond 5 the search returns NaN, and this NaN,
    not 0, is the lower bound of the second search: with the first crossing
    at 7 and the second at 2 log-seconds the second search returns 0, where
    a lower bound of 0 would have selected 2. *)
Lemma C2_undefined_bound_is_not_replaced_by_zero :
  isnan (log_tau_0 ft_far) = true
  /\ log_tau_1 ft_far = zero
  /\ _smallest_positive_real_root (roots_zero ft_far) (of_Z 0) (of_Z 5) = f2
  /\ log_tau_1 ft_far
     <> _smallest_positive_real_root (roots_zero ft_far)
          (if isnan (log_tau_0 ft_far) then of_Z 0 else log_tau_0 ft_far)
          (of_Z 5).
Proof.
  repeat split; try (vm_compute; reflexivity).
  vm_compute. discriminate.
Qed.

(** C2, amended.  The three searches use the upper bound 5; the first one
    starts from 0, the second from the value returned by the first and the
    third from the value returned by the second, passed on unchanged.  A
    root selected by the second (third) search is a real root of its
    polynomial lying strictly above the value returned by the first
    (second) search and not above 5; when the previous search returned NaN
    no root passes the filter of the next one. *)
Theorem C2_lower_bound_is_previous_result (ft : fitted) :
  log_tau_0 ft = _smallest_positive_real_root (roots_plus ft) (of_Z 0) (of_Z 5)
  /\ log_tau_1 ft
     = _smallest_positive_real_root (roots_zero ft) (log_tau_0 ft) (of_Z 5)
  /\ log_tau_2 ft
     = _smallest_positive_real_root (roots_minus ft) (log_tau_1 ft) (of_Z 5)
  /\ (isnan (log_tau_1 ft) = false ->
      filter (cond (log_tau_0 ft)) (roots_zero ft) <> [] ->
      lt (log_tau_0 ft) (log_tau_1 ft) = true
      /\ le (log_tau_1 ft) (of_Z 5) = true
      /\ exists c, In c (roots_zero ft) /\ isreal c = true
                   /\ re c = log_tau_1 ft)
  /\ (isnan (log_tau_2 ft) = false ->
      filter (cond (log_tau_1 ft)) (roots_minus ft) <> [] ->
      lt (log_tau_1 ft) (log_tau_2 ft) = true
      /\ le (log_tau_2 ft) (of_Z 5) = true
      /\ exists c, In c (roots_minus ft) /\ isreal c = true
                   /\ re c = log_tau_2 ft)
  /\ (isnan (log_tau_0 ft) = true ->
      filter (cond (log_tau_0 ft)) (roots_zero ft) = [])
  /\ (isnan (log_tau_1 ft) = true ->
      filter (cond (log_tau_1 ft)) (roots_minus ft) = []).
Proof.
  repeat split; try reflexivity.
  - apply (selected_root_in_window (roots_zero ft) (log_tau_0 ft) (of_Z 5)); auto.
  - apply (selected_root_in_window (roots_zero ft) (log_tau_0 ft) (of_Z 5)); auto.
  - apply (selected_root_in_window (roots_zero ft) (log_tau_0 ft) (of_Z 5)); auto.
  - apply (selected_root_in_window (roots_minus ft) (log_tau_1 ft) (of_Z 5)); auto.
  - apply (selected_root_in_window (roots_minus ft) (log_tau_1 ft) (of_Z 5)); auto.
  - apply (selected_root_in_window (roots_minus ft) (log_tau_1 ft) (of_Z 5)); auto.
  - intros H. apply isnan_true in H. rewrite H. apply nan_bound_filters_all.
  - intros H. apply isnan_true in H. rewrite H. apply nan_bound_filters_all.
Qed.

Lemma C2_lower_bound_is_previous_result_witness :
  lt (log_tau_0 ft_ordered) (log_tau_1 ft_ordered) = true
  /\ lt (log_tau_1 ft_ordered) (log_tau_2 ft_ordered) = true
  /\ filter (cond (log_tau_0 ft_far)) (roots_zero ft_far) = [].
Proof.
  destruct (C2_lower_bound_is_previous_result ft_ordered)
    as (_ & _ & _ & H1 & H2 & _ & _).
  destruct (C2_lower_bound_is_previous_result ft_far)
    as (_ & _ & _ & _ & _ & H3 & _).
  split; [ | split].
  - apply H1; vm_compute; [reflexivity | discriminate].
  - apply H2; vm_compute; [reflexivity | discriminate].
  - apply H3. vm_compute. reflexivity.
Defined.

(** Each of the three log-averaging-times is NaN or lies in [0, 5]. *)
Lemma log_tau_window (ft : fitted) (r : float64) :
  In r [log_tau_0 ft; log_tau_1 ft; log_tau_2 ft] ->
  isnan r = true \/ (le zero r = true /\ le r (of_Z 5) = true).
Proof.
  assert (H5 : isnan (of_Z 5) = false) by reflexivity.
  assert (H0 : isnan (log_tau_0 ft) = true
               \/ (le zero (log_tau_0 ft) = true
                   /\ le (log_tau_0 ft) (of_Z 5) = true)).
  { apply (root_in_window (roots_plus ft) (of_Z 0) (of_Z 5) H5).
    right. reflexivity. }
  assert (H1 : isnan (log_tau_1 ft) = true
               \/ (le zero (log_tau_1 ft) = true
                   /\ le (log_tau_1 ft) (of_Z 5) = true)).
  { apply (root_in_window (roots_zero ft) (log_tau_0 ft) (of_Z 5) H5).
    tauto. }
  assert (H2 : isnan (log_tau_2 ft) = true
               \/ (le zero (log_tau_2 ft) = true
                   /\ le (log_tau_2 ft) (of_Z 5) = true)).
  { apply (root_in_window (roots_minus ft) (log_tau_1 ft) (of_Z 5) H5).
    tauto. }
  intros [<- | [<- | [<- | []]]]; assumption.
Qed.

Section TauRange.

Variable pow10 : float64 -> float64.
Variable c_bi : float64.

(** What is taken for granted on [10**x]: NaN gives NaN, the function is
    monotone, and it is exact at 0 and at 5. *)
Hypothesis pow10_nan : pow10 nan = nan.
Hypothesis pow10_mono :
  forall x y, le x y = true -> le (pow10 x) (pow10 y) = true.
Hypothesis pow10_0 : pow10 (of_Z 0) = of_Z 1.
Hypothesis pow10_5 : pow10 (of_Z 5) = of_Z 100000.

(** C10.  Whenever [plot_allan_std_dev] returns, each of [tau_0],
    [tau_1], [tau_2] that is not NaN lies between 1 and 1e5: it is ten to
    a log-averaging-time that lies in [0, 5]. *)
Theorem C10_tau_between_1_and_1e5
    (fit : Series -> result fitted) (data : Series)
    (np : noise_params) (out : list string) :
  snd (plot_allan_std_dev pow10 c_bi fit data) = Ok (np, out) ->
  forall tau, In tau [tau_0 np; tau_1 np; tau_2 np] ->
    isnan tau = false ->
    le (of_Z 1) tau = true /\ le tau (of_Z 100000) = true.
Proof.
  unfold plot_allan_std_dev.
  destruct (to_timedelta 1000000000 (s_index data)) as [idx | e];
    simpl; [ | discriminate].
  destruct (fit (MkSeries idx (s_values data))) as [ft | e];
    simpl; [ | discriminate].
  intros Hok. injection Hok as Hnp.
  assert (Enp : np = fst (noise_of_fit pow10 c_bi ft))
    by (rewrite Hnp; reflexivity).
  destruct (noise_of_fit_taus pow10 c_bi ft) as (E0 & E1 & E2).
  rewrite <- Enp in E0, E1, E2.
  assert (Hgen : forall r, In r [log_tau_0 ft; log_tau_1 ft; log_tau_2 ft] ->
            isnan (pow10 r) = false ->
            le (of_Z 1) (pow10 r) = true
            /\ le (pow10 r) (of_Z 100000) = true).
  { intros r Hr Hn.
    destruct (log_tau_window ft r Hr) as [Hnan | [Hlo Hhi]].
    - apply isnan_true in Hnan. pose proof pow10_nan as Hp.
      unfold nan in Hp. rewrite Hnan, Hp in Hn. discriminate.
    - split.
      + rewrite <- pow10_0. apply pow10_mono. exact Hlo.
      + rewrite <- pow10_5. apply pow10_mono. exact Hhi. }
  intros tau [<- | [<- | [<- | []]]] Hn;
    [rewrite E0 in * | rewrite E1 in * | rewrite E2 in *];
    apply Hgen; simpl; auto.
Qed.

End TauRange.

(** The step function of the examples meets what is asked of [10**x]. *)
Lemma pow10_floor_mono (x y : float64) :
  le x y = true -> le (pow10_floor x) (pow10_floor y) = true.
Proof.
  intros Hle. pose proof Hle as Hn. apply le_iff in Hn.
  destruct Hn as (Hx & Hy & _).
  unfold pow10_floor. rewrite Hx, Hy.
  repeat match goal with
         | |- context [if lt x ?k then _ else _] =>
             destruct (lt x k) eqn:?
         end;
  repeat match goal with
         | |- context [if lt y ?k then _ else _] =>
             destruct (lt y k) eqn:?
         end;
  try reflexivity;
  exfalso;
  match goal with
  | Hy' : lt y ?k = true, Hx' : lt x ?k = false |- _ =>
      rewrite (le_lt_trans _ _ _ Hle Hy') in Hx'; discriminate
  end.
Qed.

Lemma C10_tau_between_1_and_1e5_witness :
  let np := fst (noise_of_fit pow10_floor f1 ft_ordered) in
  le (of_Z 1) (tau_1 np) = true /\ le (tau_1 np) (of_Z 100000) = true.
Proof.
  intros np.
  apply (C10_tau_between_1_and_1e5 pow10_floor f1
           eq_refl pow10_floor_mono eq_refl eq_refl
           (fun _ => Ok ft_ordered) series_td np
           (snd (noise_of_fit pow10_floor f1 ft_ordered))).
  - vm_compute. reflexivity.
  - simpl. auto.
  - vm_compute. reflexivity.
Defined.

End AllanClaims.

(** * The series handed to the estimators *)

Module SeriesProps.

Import Samples Allan.

Lemma to_timedelta_of_timedelta (per_unit : Z) (ns : list Z) :
  to_timedelta per_unit (TimedeltaIndex ns) = Ok (TimedeltaIndex ns).
Proof. reflexivity. Qed.

(** A series indexed 0, 1, 2 comes back from either estimator with the
    index 0 s, 1 s, 2 s in nanoseconds. *)
Example numeric_index_is_replaced :
  fst (plot_allan_std_dev pow10_floor f1 (fun _ => Ok ft_ordered) series_range)
  = MkSeries (TimedeltaIndex [0; 1000000000; 2000000000]) [f1; f2; f3]
  /\ fst (Autocorr.plot_autocorrelation (fun _ => Ok []) series_range)
     = MkSeries (TimedeltaIndex [0; 1000000000; 2000000000]) [f1; f2; f3]
  /\ s_index series_range = RangeIndex 3
  /\ s_index (fst (plot_allan_std_dev pow10_floor f1
                     (fun _ => Ok ft_ordered) series_range))
     <> s_index series_range.
Proof.
  repeat split; try (vm_compute; reflexivity).
  vm_compute. discriminate.
Qed.



End SeriesProps.

(** * Exactness of [timestamp*1e3] *)

Module F64Exact.


















End F64Exact.

(** * Tables and the topic store *)

Module FrameFacts.

Import PX4MessageDict.

Lemma bind_ok {A B} (r : result A) (k : A -> result B) (b : B) :
  bind r k = Ok b -> exists a, r = Ok a /\ k a = Ok b.
Proof.
  destruct r as [a | e]; simpl; [ | discriminate].
  intros H. exists a. auto.
Qed.

Lemma append_nil_right (s : string) : (s ++ "")%string = s.
Proof. induction s as [ | c s IH]; simpl; [ | rewrite IH]; reflexivity. Qed.


(** A column found under a label is a column of the table, and the only
    one under that label. *)
Lemma get_column_In (missing : exn) (df : DataFrame) (name : string)
    (c : column) :
  get_column missing df name = Ok c -> In (name, c) (columns df).
Proof.
  unfold get_column.
  destruct (filter (fun c0 => String.eqb (fst c0) name) (columns df))
    as [ | c0 [ | c1 r]] eqn:E; try discriminate.
  intros H. injection H as <-.
  assert (Hin : In c0 (filter (fun c1 => String.eqb (fst c1) name) (columns df)))
    by (rewrite E; left; reflexivity).
  apply filter_In in Hin. destruct Hin as [Hin Heq].
  apply String.eqb_eq in Heq. destruct c0 as [n c]. simpl in *. subst. exact Hin.
Qed.

Lemma get_column_unique (missing : exn) (df : DataFrame) (name : string)
    (c c' : column) :
  get_column missing df name = Ok c -> In (name, c') (columns df) -> c' = c.
Proof.
  unfold get_column.
  destruct (filter (fun c0 => String.eqb (fst c0) name) (columns df))
    as [ | c0 [ | c1 r]] eqn:E; try discriminate.
  intros H Hin. injection H as <-.
  assert (Hf : In (name, c')
                  (filter (fun c1 => String.eqb (fst c1) name) (columns df))).
  { apply filter_In. split; [exact Hin | ]. simpl. apply String.eqb_refl. }
  rewrite E in Hf. destruct Hf as [Heq | []]. rewrite Heq. reflexivity.
Qed.

(** The exception raised for a missing label plays no role when the label
    is found. *)
Lemma get_column_missing_irrelevant (e e' : exn) (df : DataFrame)
    (name : string) (c : column) :
  get_column e df name = Ok c -> get_column e' df name = Ok c.
Proof.
  unfold get_column.
  destruct (filter (fun c0 => String.eqb (fst c0) name) (columns df))
    as [ | c0 [ | c1 r]]; try discriminate. auto.
Qed.

(** *** Renaming *)

Lemma new_col_is_key (topic col : string) :
  String.eqb (new_col topic col) ts_label = String.eqb col ts_label.
Proof.
  unfold new_col. destruct (String.eqb col ts_label) eqn:E; [exact E | ].
  reflexivity.
Qed.

Lemma new_col_qualifies (topic col : string) :
  col <> ts_label ->
  new_col topic col = ("t_" ++ topic ++ "__f_" ++ col)%string.
Proof.
  intros H. unfold new_col.
  destruct (String.eqb_spec col ts_label); [contradiction | reflexivity].
Qed.

Lemma new_col_keeps_timestamp (topic : string) :
  new_col topic ts_label = ts_label.
Proof. reflexivity. Qed.

Lemma filter_rename (topic : string) (cols : list (string * column)) :
  filter (fun c => String.eqb (fst c) ts_label)
         (map (fun c => (new_col topic (fst c), snd c)) cols)
  = map (fun c => (new_col topic (fst c), snd c))
        (filter (fun c => String.eqb (fst c) ts_label) cols).
Proof.
  induction cols as [ | c cols IH]; simpl; [reflexivity | ].
  rewrite new_col_is_key.
  destruct (String.eqb (fst c) ts_label); simpl; rewrite IH; reflexivity.
Qed.

Lemma rename_get_timestamp (missing : exn) (topic : string) (raw : DataFrame) :
  get_column missing (rename topic raw) ts_label
  = get_column missing raw ts_label.
Proof.
  unfold get_column, rename. simpl. rewrite filter_rename.
  destruct (filter (fun c => String.eqb (fst c) ts_label) (columns raw))
    as [ | c0 [ | c1 r]]; reflexivity.
Qed.


End FrameFacts.

(** * Construction of the store *)

Module StoreProps.

Import PX4MessageDict Samples FrameFacts F64Exact.



End StoreProps.


(** * Filling of missing values *)

Module FillFacts.

Import PX4MessageDict.


Lemma finite_valid (x : float64) : isfinite x = true -> valid x.
Proof. destruct x; simpl; intros H; try discriminate; reflexivity. Qed.


(** *** Lengths *)




(** *** Where the values come from *)




(** *** A valid cell is left alone *)






(** *** When no missing value is left *)








(** *** The three fills on a table *)




End FillFacts.

(** * The as-of join and the loop of merges *)

Module MergeFacts.

Import PX4MessageDict FrameFacts FillFacts.

(** *** Labels and suffixes *)















(** *** One join *)











(** *** The loop of joins *)

Lemma getitem_In (self : store) (topic : string) (df : DataFrame) :
  getitem self topic = Ok df -> In (topic, df) self.
Proof.
  induction self as [ | [k d] self IH]; simpl; [discriminate | ].
  destruct (String.eqb_spec k topic) as [-> | _].
  - intros H. injection H as <-. left. reflexivity.
  - intros H. right. apply IH. exact H.
Qed.

Lemma getitem_keys (self : store) (topic : string) :
  In topic (keys self) <-> exists df, getitem self topic = Ok df.
Proof.
  induction self as [ | [k d] self IH]; simpl.
  - split; [tauto | intros (df & H); discriminate].
  - destruct (String.eqb_spec k topic) as [-> | Hne].
    + split; [intros _; exists d; reflexivity | intros _; left; reflexivity].
    + rewrite <- IH. split; [intros [H | H]; [contradiction | exact H] | auto].
Qed.

Lemma getitem_missing (self : store) (topic : string) :
  ~ In topic (keys self) -> getitem self topic = Raise KeyError.
Proof.
  induction self as [ | [k d] self IH]; simpl; [reflexivity | ].
  intros H. destruct (String.eqb_spec k topic) as [-> | Hne].
  - exfalso. apply H. left. reflexivity.
  - apply IH. intros Hin. apply H. right. exact Hin.
Qed.










(** *** The meaning of the backward search *)

Lemma sorted_head_le (k : Z) (r : list Z) :
  is_sorted (k :: r) = true -> Forall (fun x => k <= x) r.
Proof.
  revert k. induction r as [ | y r IH]; intros k H; [constructor | ].
  simpl in H. apply andb_true_iff in H. destruct H as [Hky Hs].
  apply Z.leb_le in Hky. constructor; [exact Hky | ].
  specialize (IH y Hs). rewrite Forall_forall in *.
  intros x Hx. specialize (IH x Hx). lia.
Qed.

Lemma sorted_tail (k : Z) (r : list Z) :
  is_sorted (k :: r) = true -> is_sorted r = true.
Proof.
  destruct r as [ | y r]; [reflexivity | ].
  simpl. intros H. apply andb_true_iff in H. destruct H as [_ H]. exact H.
Qed.

Lemma asof_pos_le (rk : list Z) (t : Z) :
  (asof_pos rk t <= List.length rk)%nat.
Proof.
  induction rk as [ | k r IH]; simpl; [lia | ].
  destruct (k <=? t); simpl; lia.
Qed.

Lemma asof_pos_before (rk : list Z) (t : Z) (j : nat) :
  (j < asof_pos rk t)%nat -> nth j rk 0 <= t.
Proof.
  revert j. induction rk as [ | k r IH]; intros j H; simpl in H; [lia | ].
  destruct (k <=? t) eqn:E; [ | lia].
  destruct j as [ | j]; simpl.
  - apply Z.leb_le. exact E.
  - apply IH. lia.
Qed.

Lemma asof_pos_after (rk : list Z) (t : Z) (j : nat) :
  is_sorted rk = true ->
  (asof_pos rk t <= j < List.length rk)%nat -> t < nth j rk 0.
Proof.
  revert j. induction rk as [ | k r IH]; intros j Hs H; simpl in H; [lia | ].
  destruct (k <=? t) eqn:E.
  - destruct j as [ | j]; [lia | ]. simpl.
    apply IH; [apply (sorted_tail k r Hs) | lia].
  - apply Z.leb_gt in E. destruct j as [ | j]; simpl; [exact E | ].
    pose proof (sorted_head_le k r Hs) as Hall.
    rewrite Forall_forall in Hall.
    assert (Hin : In (nth j r 0) r) by (apply nth_In; simpl in H; lia).
    specialize (Hall _ Hin). lia.
Qed.


Lemma asof_backward_none (rk : list Z) (t : Z) :
  is_sorted rk = true ->
  (asof_backward rk t = None
   <-> forall j, (j < List.length rk)%nat -> t < nth j rk 0).
Proof.
  intros Hs. unfold asof_backward. split.
  - destruct (asof_pos rk t) as [ | p] eqn:E; [ | discriminate].
    intros _ j Hj. apply (asof_pos_after rk t j Hs). lia.
  - intros H. destruct (asof_pos rk t) as [ | p] eqn:E; [reflexivity | ].
    pose proof (asof_pos_le rk t).
    pose proof (asof_pos_before rk t p) as Hb.
    specialize (H p). lia.
Qed.

End MergeFacts.

(** * [concat] *)

Module ConcatFacts.

Import PX4MessageDict FrameFacts FillFacts MergeFacts.

Lemma bind_raise {A B} (r : result A) (k : A -> result B) (e : exn) :
  bind r k = Raise e -> r = Raise e \/ exists a, r = Ok a /\ k a = Raise e.
Proof.
  destruct r as [a | e']; simpl; intros H.
  - right. exists a. auto.
  - left. injection H as <-. reflexivity.
Qed.

Ltac raise_cases H :=
  repeat match type of H with
         | bind _ _ = Raise _ =>
             apply bind_raise in H; destruct H as [H | (? & ? & H)]
         end.

(** *** Which exceptions come from where *)

Lemma getitem_raises (self : store) (topic : string) (e : exn) :
  getitem self topic = Raise e -> e = KeyError.
Proof.
  induction self as [ | [k d] self IH]; simpl.
  - intros H. injection H as <-. reflexivity.
  - destruct (String.eqb k topic); [discriminate | exact IH].
Qed.

Lemma get_column_raises (missing : exn) (df : DataFrame) (name : string)
    (e : exn) :
  get_column missing df name = Raise e -> e = missing \/ e = Unsupported.
Proof.
  unfold get_column.
  destruct (filter (fun c => String.eqb (fst c) name) (columns df))
    as [ | c0 [ | c1 r]]; intros H; try discriminate;
    injection H as <-; auto.
Qed.

Lemma int_values_raises (c : column) (e : exn) :
  int_values c = Raise e -> e = Unsupported.
Proof.
  destruct c; simpl; intros H; [discriminate | ].
  injection H as <-. reflexivity.
Qed.

Ltac library_leaf :=
  match goal with
  | H : getitem _ _ = Raise _ |- _ =>
      apply getitem_raises in H; subst; exact I
  | H : get_column _ _ _ = Raise _ |- _ =>
      apply get_column_raises in H; destruct H; subst; exact I
  | H : int_values _ = Raise _ |- _ =>
      apply int_values_raises in H; subst; exact I
  end.

Lemma merge_asof_raises (left right : DataFrame) (e : exn) :
  merge_asof left right = Raise e -> raised_by_library e.
Proof.
  unfold merge_asof. intros H. raise_cases H; try library_leaf.
  destruct (negb (is_sorted x1)); [injection H as <-; exact I | ].
  destruct (negb (is_sorted x2)); [injection H as <-; exact I | discriminate].
Qed.

Lemma merge_topics_raises (self : store) (topics : list string)
    (m0 : DataFrame) (e : exn) :
  merge_topics self topics m0 = Raise e -> raised_by_library e.
Proof.
  revert m0. induction topics as [ | topic rest IH]; intros m0 H; simpl in H.
  - discriminate.
  - raise_cases H; try library_leaf.
    + apply merge_asof_raises in H. exact H.
    + apply (IH _ H).
Qed.

Lemma ts_bounds_raises (self : store) (topics : list string)
    (acc : option (option Z * option Z)) (e : exn) :
  ts_bounds self topics acc = Raise e -> raised_by_library e.
Proof.
  revert acc. induction topics as [ | topic rest IH]; intros acc H; simpl in H.
  - discriminate.
  - raise_cases H; try library_leaf. apply (IH _ H).
Qed.

Lemma np_arange_raises (start : Z) (stop step : float64) (e : exn) :
  np_arange_int64 start stop step = Raise e -> e = ValueError.
Proof.
  unfold np_arange_int64.
  destruct (ceil (div (sub stop (of_Z start)) step)) as [len | ].
  - destruct (len <=? 0); discriminate.
  - intros H. injection H as <-. reflexivity.
Qed.

Lemma fixed_step_raises (self : store) (d : float64) (e : exn) :
  fixed_step_timestamps self d = Raise e -> raised_by_library e.
Proof.
  unfold fixed_step_timestamps. intros H. raise_cases H.
  - apply ts_bounds_raises in H. exact H.
  - destruct x as [[[a | ] [b | ]] | ];
      try (injection H as <-; exact I).
    apply np_arange_raises in H. subst. exact I.
Qed.

(** The only exception of [concat]'s own before the fills is the one for a
    call with neither [dt] nor [on]. *)
Lemma joined_raises (self : store) (topics : option (list string))
    (on : option string) (dt : option float64) (e : exn) :
  joined self topics on dt = Raise e ->
  raised_by_library e
  \/ (e = IOError "must pass dt or on" /\ on = None /\ dt = None).
Proof.
  unfold joined. intros H. raise_cases H; try (left; library_leaf).
  - destruct dt as [d | ]; [ | destruct on as [o | ]].
    + raise_cases H; [ | discriminate].
      left. apply fixed_step_raises in H. exact H.
    + raise_cases H; try (left; library_leaf). discriminate.
    + injection H as <-. right. auto.
  - left. apply merge_topics_raises in H. exact H.
  - discriminate.
Qed.

(** *** [concat] is the join followed by the fills and the final check *)

Lemma concat_joined (self : store) (topics : option (list string))
    (on : option string) (dt : option float64) :
  concat self topics on dt
  = (m <- joined self topics on dt ;;
     let m2 := pad (bfill (ffill m)) in
     if all_finite m2 then Ok m2 else Raise AssertionError).
Proof.
  unfold concat, joined, merge_order.
  repeat match goal with
         | |- context [bind ?r _] => destruct r; simpl
         end; reflexivity.
Qed.


Lemma singleton_key (missing : exn) (c : column) (idx : Index) :
  get_column missing (MkFrame [(ts_label, c)] idx) ts_label = Ok c.
Proof. reflexivity. Qed.





(** *** What a successful call implies *)


End ConcatFacts.

(** * Properties of [concat] *)

Module ConcatProps.

Import PX4MessageDict Samples FrameFacts FillFacts MergeFacts ConcatFacts.
Import F64Exact.

(** X3.  The two timestamp options of [concat].  With neither [dt] nor
    [on] the call raises [IOError('must pass dt or on')], whatever the
    store and the topics; with [dt] given, [on] is not looked at, so a call
    with both behaves as the call with [dt] alone; and this [IOError] is
    raised by no other call. *)
Theorem concat_timestamp_options
    (self : store) (topics : option (list string)) :
  concat self topics None None = Raise (IOError "must pass dt or on")
  /\ (forall on d,
        concat self topics on (Some d) = concat self topics None (Some d))
  /\ (forall on dt msg,
        concat self topics on dt = Raise (IOError msg) ->
        on = None /\ dt = None).
Proof.
  split; [reflexivity | ]. split.
  - intros on d. destruct on; reflexivity.
  - intros on dt msg H. rewrite concat_joined in H.
    apply bind_raise in H. destruct H as [H | (m & _ & H)].
    + apply joined_raises in H. destruct H as [H | (_ & H)]; [destruct H | exact H].
    + simpl in H. destruct (all_finite (pad (bfill (ffill m)))); discriminate.
Qed.




(** The topic [C] has its only sample after the last one of [A]: on the
    timeline of [A] its column has no value and the assertion fails. *)
Example concat_assertion_on_late_topic :
  concat (store_of raw_AC) None (Some "A"%string) None = Raise AssertionError
  /\ concat (store_of raw_AB) None (Some "A"%string) None = Ok merged_AB.
Proof. split; vm_compute; reflexivity. Qed.











(** X11.  The reference topic of [concat]: a name that is not a key of the
    store raises [KeyError], and a reference table without a [timestamp]
    column raises [AttributeError], in both cases before any join. *)
Theorem concat_reference_errors
    (self : store) (topics : option (list string)) (o : string) :
  (~ In o (keys self) -> concat self topics (Some o) None = Raise KeyError)
  /\ (forall T, getitem self o = Ok T -> ~ In ts_label (labels T) ->
               concat self topics (Some o) None = Raise AttributeError).
Proof.
  split.
  - intros H. unfold concat. rewrite (getitem_missing _ _ H). reflexivity.
  - intros T HT Hno. unfold concat. rewrite HT. simpl.
    assert (E : get_column AttributeError T ts_label = Raise AttributeError).
    { unfold get_column.
      destruct (filter (fun c => String.eqb (fst c) ts_label) (columns T))
        as [ | c0 r] eqn:Ef; [reflexivity | ].
      exfalso. apply Hno.
      assert (Hin : In c0 (filter (fun c => String.eqb (fst c) ts_label)
                                  (columns T)))
        by (rewrite Ef; left; reflexivity).
      apply filter_In in Hin. destruct Hin as [Hin He].
      apply String.eqb_eq in He. rewrite <- He.
      unfold labels. apply in_map. exact Hin. }
    rewrite E. reflexivity.
Qed.

Lemma concat_reference_errors_witness :
  concat (store_of raw_AB) None (Some "Z"%string) None = Raise KeyError.
Proof.
  apply (proj1 (concat_reference_errors (store_of raw_AB) None "Z"%string)).
  vm_compute. intuition discriminate.
Defined.

End ConcatProps.

(** * More on the root search and on the estimators *)

Module RootOrderFacts.

Import F64Order F64OrderFacts RootFinderFacts.

Lemma eq_iff (x y : float64) :
  eq x y = true <->
  isnan x = false /\ isnan y = false /\ rank x = rank y.
Proof.
  unfold eq, SFeqb.
  destruct (isnan x) eqn:Hx.
  { apply isnan_true in Hx; subst. simpl. intuition discriminate. }
  destruct (isnan y) eqn:Hy.
  { apply isnan_true in Hy; subst. rewrite nan_compare_r.
    intuition discriminate. }
  pose proof (compare_rank x y Hx Hy) as H.
  destruct (SFcompare x y) as [[ | | ] | ]; split; intros H0; try tauto;
    try discriminate; destruct H0 as (_ & _ & H0); rewrite H0 in H;
    exfalso; eapply rlt_irrefl; eauto.
Qed.

Lemma lt_same_l (x y z : float64) :
  isnan x = isnan y -> rank x = rank y -> lt x z = lt y z.
Proof.
  intros Hn Hr.
  destruct (lt x z) eqn:A, (lt y z) eqn:B; try reflexivity.
  - apply lt_iff in A. rewrite Hn, Hr in A. apply lt_iff in A. congruence.
  - apply lt_iff in B. rewrite <- Hn, <- Hr in B. apply lt_iff in B. congruence.
Qed.

Lemma lt_same_r (x y z : float64) :
  isnan x = isnan y -> rank x = rank y -> lt z x = lt z y.
Proof.
  intros Hn Hr.
  destruct (lt z x) eqn:A, (lt z y) eqn:B; try reflexivity.
  - apply lt_iff in A. rewrite Hn, Hr in A. apply lt_iff in A. congruence.
  - apply lt_iff in B. rewrite <- Hn, <- Hr in B. apply lt_iff in B. congruence.
Qed.

Lemma isfinite_same (x y : float64) :
  isnan x = isnan y -> rank x = rank y -> isfinite x = isfinite y.
Proof.
  destruct x as [sx | sx | | sx mx ex], y as [sy | sy | | sy my ey];
    simpl; intros Hn Hr; try reflexivity; try discriminate;
    try (destruct sx); try (destruct sy); discriminate.
Qed.

(** Two values of which neither is below the other have the same rank. *)
Lemma rank_of_minimal (x y : float64) :
  isnan x = false -> isnan y = false ->
  lt x y = false -> lt y x = false -> rank x = rank y.
Proof.
  intros Hx Hy Hxy Hyx.
  destruct (rlt_total (rank x) (rank y)) as [H | [H | H]]; [ | exact H | ].
  - assert (E : lt x y = true) by (apply lt_iff; auto). congruence.
  - assert (E : lt y x = true) by (apply lt_iff; auto). congruence.
Qed.

Lemma candidate_permutation (roots roots' : list complex) (min_val : float64) :
  Permutation roots roots' ->
  isnan (candidate roots min_val) = isnan (candidate roots' min_val)
  /\ rank (candidate roots min_val) = rank (candidate roots' min_val).
Proof.
  intros HP.
  assert (Hempty : forall l l' c,
             Permutation l l' -> filter (cond min_val) l = [] ->
             In c l' -> cond min_val c = true -> False).
  { intros l l' c Hp Hnil Hin Hc.
    assert (Hf : In c (filter (cond min_val) l)).
    { apply filter_In. split; [ | exact Hc].
      apply (Permutation_in c (Permutation_sym Hp)). exact Hin. }
    rewrite Hnil in Hf. destruct Hf. }
  destruct (candidate_cases roots min_val)
    as [[Hz Hnil] | (c & Hin & Hc & Hr & Hmin)];
    destruct (candidate_cases roots' min_val)
      as [[Hz' Hnil'] | (c' & Hin' & Hc' & Hr' & Hmin')].
  - rewrite Hz, Hz'. split; reflexivity.
  - exfalso. apply (Hempty roots roots' c' HP Hnil Hin' Hc').
  - exfalso. apply (Hempty roots' roots c (Permutation_sym HP) Hnil' Hin Hc).
  - rewrite Hr, Hr'.
    assert (Hn : isnan (re c) = false).
    { unfold cond in Hc. apply andb_true_iff in Hc. destruct Hc as [_ Hg].
      unfold gt in Hg. apply lt_nonnan in Hg. tauto. }
    assert (Hn' : isnan (re c') = false).
    { unfold cond in Hc'. apply andb_true_iff in Hc'. destruct Hc' as [_ Hg].
      unfold gt in Hg. apply lt_nonnan in Hg. tauto. }
    split; [congruence | ].
    apply rank_of_minimal; auto.
    + apply Hmin'; [ | exact Hc].
      apply (Permutation_in c HP). exact Hin.
    + apply Hmin; [ | exact Hc'].
      apply (Permutation_in c' (Permutation_sym HP)). exact Hin'.
Qed.

(** A value between two finite values is finite. *)
Lemma finite_between (x lo hi : float64) :
  le lo x = true -> le x hi = true ->
  isfinite lo = true -> isfinite hi = true -> isfinite x = true.
Proof.
  intros Hlo Hhi Flo Fhi.
  destruct x as [s | s | | s m e]; try reflexivity.
  - destruct s.
    + destruct lo as [sl | sl | | sl ml el]; try discriminate;
        destruct sl; discriminate.
    + destruct hi as [sh | sh | | sh mh eh]; try discriminate;
        destruct sh; discriminate.
  - destruct lo as [sl | sl | | sl ml el]; discriminate.
Qed.

End RootOrderFacts.

Module EstimatorProps.

Import Samples Allan F64Order F64OrderFacts RootFinderFacts RootOrderFacts.

(** X12.  The root search does not depend on the order in which the roots
    come: on two arrangements of the same roots the two results are both
    NaN or compare equal. *)
Theorem root_search_ignores_order
    (roots roots' : list complex) (min_val max_val : float64) :
  Permutation roots roots' ->
  let r := _smallest_positive_real_root roots min_val max_val in
  let r' := _smallest_positive_real_root roots' min_val max_val in
  (isnan r = true /\ isnan r' = true) \/ eq r r' = true.
Proof.
  intros HP. simpl. unfold _smallest_positive_real_root. cbv zeta.
  change (gt (candidate roots min_val) max_val)
    with (lt max_val (candidate roots min_val)).
  change (gt (candidate roots' min_val) max_val)
    with (lt max_val (candidate roots' min_val)).
  destruct (candidate_permutation roots roots' min_val HP) as (Hn & Hr).
  rewrite (isfinite_same _ _ Hn Hr),
          (lt_same_l _ _ min_val Hn Hr), (lt_same_r _ _ max_val Hn Hr).
  destruct (isfinite (candidate roots' min_val)) eqn:Hf; simpl;
    [ | left; split; reflexivity].
  destruct (lt (candidate roots' min_val) min_val); simpl;
    [left; split; reflexivity | ].
  destruct (lt max_val (candidate roots' min_val)); simpl;
    [left; split; reflexivity | ].
  right. apply eq_iff.
  pose proof (isfinite_nonnan _ Hf) as Hn'.
  repeat split; congruence.
Qed.

Lemma root_search_ignores_order_witness :
  eq (_smallest_positive_real_root roots8 (of_Z 0) (of_Z 5))
     (_smallest_positive_real_root (rev roots8) (of_Z 0) (of_Z 5)) = true.
Proof.
  destruct (root_search_ignores_order roots8 (rev roots8) (of_Z 0) (of_Z 5)
              (Permutation_rev roots8)) as [[H _] | H].
  - vm_compute in H. discriminate.
  - exact H.
Defined.

(** X13.  When no root passes the filter (in particular for no root at
    all), the search returns its default [0] if [0] is neither below
    [min_val] nor above [max_val], and NaN otherwise. *)
Theorem root_search_without_candidate
    (roots : list complex) (min_val max_val : float64) :
  filter (cond min_val) roots = [] ->
  _smallest_positive_real_root roots min_val max_val
  = if lt zero min_val || gt zero max_val then nan else zero.
Proof.
  intros Hnil. unfold _smallest_positive_real_root.
  destruct (candidate_cases roots min_val)
    as [[Hz _] | (c & Hin & Hc & _)].
  - rewrite Hz. reflexivity.
  - exfalso.
    assert (Hf : In c (filter (cond min_val) roots))
      by (apply filter_In; auto).
    rewrite Hnil in Hf. destruct Hf.
Qed.

Lemma root_search_without_candidate_witness :
  _smallest_positive_real_root [Cx fm2 zero] (of_Z 0) (of_Z 5) = zero
  /\ _smallest_positive_real_root [Cx fm2 zero] f1 (of_Z 5) = nan.
Proof.
  split.
  - rewrite (root_search_without_candidate [Cx fm2 zero] (of_Z 0) (of_Z 5));
      reflexivity.
  - rewrite (root_search_without_candidate [Cx fm2 zero] f1 (of_Z 5));
      reflexivity.
Defined.

(** X14.  A correlation time returned by [plot_autocorrelation] is NaN or
    lies between 0 and 1e6: it is never negative and never an infinity. *)
Theorem correlation_time_range
    (fit : Series -> result (list complex)) (data : Series) (r : float64) :
  snd (Autocorr.plot_autocorrelation fit data) = Ok r ->
  isnan r = true
  \/ (le zero r = true /\ le r f1e6 = true /\ isfinite r = true).
Proof.
  unfold Autocorr.plot_autocorrelation.
  destruct (to_timedelta 1000000000 (s_index data)) as [idx | e];
    simpl; [ | discriminate].
  destruct (fit (MkSeries idx (s_values data))) as [roots | e];
    simpl; [ | discriminate].
  intros H. injection H as <-.
  destruct (root_in_window roots (of_Z 0) f1e6) as [Hn | [H0 H1]];
    [reflexivity | right; reflexivity | left; exact Hn | ].
  right. split; [exact H0 | split; [exact H1 | ]].
  apply (finite_between _ zero f1e6); auto.
Qed.

Lemma correlation_time_range_witness :
  isnan f0_1 = true
  \/ (le zero f0_1 = true /\ le f0_1 f1e6 = true /\ isfinite f0_1 = true).
Proof.
  apply (correlation_time_range (fun _ => Ok roots8) series_td f0_1).
  vm_compute. reflexivity.
Defined.

Section Diagnostics.

Variable pow10 : float64 -> float64.
Variable c_bi : float64.

Hypothesis pow10_nan : pow10 nan = nan.
Hypothesis pow10_mono :
  forall x y, le x y = true -> le (pow10 x) (pow10 y) = true.
Hypothesis pow10_0 : pow10 (of_Z 0) = of_Z 1.
Hypothesis pow10_5 : pow10 (of_Z 5) = of_Z 100000.

Lemma found_iff_defined (ft : fitted) (r : float64) :
  In r [log_tau_0 ft; log_tau_1 ft; log_tau_2 ft] ->
  found (pow10 r) = negb (isnan r).
Proof.
  intros Hr. destruct (AllanClaims.log_tau_window ft r Hr) as [Hn | [Hlo Hhi]].
  - rewrite Hn. apply isnan_true in Hn. rewrite Hn.
    change S754_nan with nan. rewrite pow10_nan. reflexivity.
  - assert (Hnn : isnan r = false) by (apply le_iff in Hlo; tauto).
    rewrite Hnn. simpl.
    assert (H1 : le (of_Z 1) (pow10 r) = true)
      by (rewrite <- pow10_0; apply pow10_mono; exact Hlo).
    assert (H5 : le (pow10 r) (of_Z 100000) = true)
      by (rewrite <- pow10_5; apply pow10_mono; exact Hhi).
    unfold found. apply andb_true_iff. split.
    + unfold gt. apply (lt_le_trans _ (of_Z 1)); [reflexivity | exact H1].
    + apply (finite_between _ (of_Z 1) (of_Z 100000)); auto.
Qed.

(** X15.  With [10**x] monotone, NaN at NaN and exact at 0 and 5: the
    diagnostic [failed to find tau_i] is printed exactly for the searches
    that returned NaN, in the order 0, 1, 2, and the noise coefficient and
    the averaging time of such a search are NaN. *)
Theorem allan_diagnostics (ft : fitted) :
  let np := fst (noise_of_fit pow10 c_bi ft) in
  let out := snd (noise_of_fit pow10 c_bi ft) in
  out = (if isnan (log_tau_0 ft) then ["failed to find tau_0"%string] else [])
        ++ (if isnan (log_tau_1 ft) then ["failed to find tau_1"%string] else [])
        ++ (if isnan (log_tau_2 ft) then ["failed to find tau_2"%string] else [])
  /\ (isnan (log_tau_0 ft) = true ->
      isnan (sig_rw np) = true /\ isnan (tau_0 np) = true)
  /\ (isnan (log_tau_1 ft) = true ->
      isnan (sig_bi np) = true /\ isnan (tau_1 np) = true)
  /\ (isnan (log_tau_2 ft) = true ->
      isnan (sig_rrw np) = true /\ isnan (tau_2 np) = true).
Proof.
  simpl. unfold noise_of_fit.
  rewrite (found_iff_defined ft (log_tau_0 ft)) by (simpl; auto).
  rewrite (found_iff_defined ft (log_tau_1 ft)) by (simpl; auto).
  rewrite (found_iff_defined ft (log_tau_2 ft)) by (simpl; auto).
  assert (Hnan : forall x, isnan x = true -> isnan (pow10 x) = true).
  { intros x Hx. apply isnan_true in Hx. rewrite Hx.
    change S754_nan with nan. rewrite pow10_nan. reflexivity. }
  destruct (isnan (log_tau_0 ft)) eqn:E0;
    destruct (isnan (log_tau_1 ft)) eqn:E1;
    destruct (isnan (log_tau_2 ft)) eqn:E2; simpl;
    repeat split; try reflexivity; try discriminate; auto.
Qed.

End Diagnostics.

Lemma allan_diagnostics_witness :
  snd (noise_of_fit pow10_floor f1 ft_far) = ["failed to find tau_0"%string].
Proof.
  destruct (allan_diagnostics pow10_floor f1 eq_refl
              AllanClaims.pow10_floor_mono eq_refl eq_refl ft_far)
    as (H & _).
  rewrite H. vm_compute. reflexivity.
Defined.

End EstimatorProps.

(** * More on the construction of the store *)

Module StoreFacts.

Import PX4MessageDict FrameFacts ConcatFacts.

Lemma append_inj_l (p a b : string) : (p ++ a)%string = (p ++ b)%string -> a = b.
Proof.
  induction p as [ | c p IH]; simpl; intros H; [exact H | ].
  injection H as H. apply IH. exact H.
Qed.

(** The renaming of the columns of one topic maps different labels to
    different labels. *)
Lemma new_col_inj (topic a b : string) :
  new_col topic a = new_col topic b -> a = b.
Proof.
  unfold new_col.
  destruct (String.eqb_spec a ts_label) as [-> | Ha];
    destruct (String.eqb_spec b ts_label) as [-> | Hb]; simpl.
  - reflexivity.
  - intros H. discriminate H.
  - intros H. discriminate H.
  - intros H. injection H as H.
    apply (append_inj_l topic) in H. injection H as H. exact H.
Qed.

Lemma new_col_eqb (topic a b : string) :
  String.eqb (new_col topic a) (new_col topic b) = String.eqb a b.
Proof.
  destruct (String.eqb_spec a b) as [-> | Hne].
  - apply String.eqb_refl.
  - apply String.eqb_neq. intros H. apply Hne. apply (new_col_inj topic). exact H.
Qed.

Lemma filter_renamed (topic col : string) (cols : list (string * column)) :
  filter (fun c => String.eqb (fst c) (new_col topic col))
         (map (fun c => (new_col topic (fst c), snd c)) cols)
  = map (fun c => (new_col topic (fst c), snd c))
        (filter (fun c => String.eqb (fst c) col) cols).
Proof.
  induction cols as [ | c cols IH]; simpl; [reflexivity | ].
  rewrite new_col_eqb.
  destruct (String.eqb (fst c) col); simpl; rewrite IH; reflexivity.
Qed.

(** Looking a column up under its new label in the renamed table is
    looking it up under its old label in the raw one. *)
Lemma get_column_renamed (missing : exn) (topic col : string) (raw : DataFrame) :
  get_column missing (rename topic raw) (new_col topic col)
  = get_column missing raw col.
Proof.
  unfold get_column, rename. simpl. rewrite filter_renamed.
  destruct (filter (fun c => String.eqb (fst c) col) (columns raw))
    as [ | c0 [ | c1 r]]; reflexivity.
Qed.

Lemma init_topic_columns (topic : string) (raw df : DataFrame) :
  init_topic topic raw = Ok df -> columns df = columns (rename topic raw).
Proof.
  unfold init_topic. intros H.
  apply bind_ok in H. destruct H as (c & _ & H).
  apply bind_ok in H. destruct H as (ts & _ & H).
  injection H as <-. reflexivity.
Qed.

Lemma init_getitem (d : list (string * DataFrame)) (s : store)
    (topic : string) (raw : DataFrame) :
  __init__ d = Ok s -> getitem d topic = Ok raw ->
  exists df, getitem s topic = Ok df /\ init_topic topic raw = Ok df.
Proof.
  revert s. induction d as [ | [k r] d IH]; intros s H Hg; simpl in *.
  - discriminate.
  - apply bind_ok in H. destruct H as (df & Hdf & H).
    apply bind_ok in H. destruct H as (rest & Hrest & H).
    injection H as <-. simpl.
    destruct (String.eqb_spec k topic) as [-> | Hne].
    + injection Hg as <-. exists df. auto.
    + apply (IH rest Hrest Hg).
Qed.

Lemma init_keys (d : list (string * DataFrame)) (s : store) :
  __init__ d = Ok s -> keys s = map fst d.
Proof.
  revert s. induction d as [ | [k r] d IH]; intros s H; simpl in *.
  - injection H as <-. reflexivity.
  - apply bind_ok in H. destruct H as (df & Hdf & H).
    apply bind_ok in H. destruct H as (rest & Hrest & H).
    injection H as <-. simpl. f_equal. apply IH. exact Hrest.
Qed.

Lemma init_topic_raises (topic : string) (raw : DataFrame) (e : exn) :
  init_topic topic raw = Raise e -> e = AttributeError \/ e = Unsupported.
Proof.
  unfold init_topic. intros H.
  apply bind_raise in H. destruct H as [H | (c & _ & H)].
  - apply get_column_raises in H. exact H.
  - apply bind_raise in H. destruct H as [H | (ts & _ & H)].
    + apply int_values_raises in H. auto.
    + discriminate.
Qed.

Lemma init_topic_missing (topic : string) (raw : DataFrame) :
  ~ In ts_label (labels raw) -> init_topic topic raw = Raise AttributeError.
Proof.
  intros Hno. unfold init_topic. rewrite rename_get_timestamp.
  unfold get_column.
  destruct (filter (fun c => String.eqb (fst c) ts_label) (columns raw))
    as [ | c0 r] eqn:Ef; [reflexivity | ].
  exfalso. apply Hno.
  assert (Hin : In c0 (filter (fun c => String.eqb (fst c) ts_label)
                              (columns raw)))
    by (rewrite Ef; left; reflexivity).
  apply filter_In in Hin. destruct Hin as [Hin He].
  apply String.eqb_eq in He. rewrite <- He.
  unfold labels. apply in_map. exact Hin.
Qed.

End StoreFacts.

Module StoreLookupProps.

Import PX4MessageDict Samples FrameFacts ConcatFacts StoreFacts.

(** X16.  Lookup after construction: in the store built from [d], the
    table of a topic holds each value column [col] of the raw table under
    the label [t_<topic>__f_<col>], with the same contents, and the
    [timestamp] column under [timestamp]; a label that the raw table lacks
    is not found under its new name either. *)
Theorem store_lookup_after_construction
    (d : list (string * DataFrame)) (s : store)
    (topic : string) (raw : DataFrame) :
  __init__ d = Ok s -> getitem d topic = Ok raw ->
  exists df,
    getitem s topic = Ok df
    /\ (forall col, col <> ts_label ->
          get_column KeyError df ("t_" ++ topic ++ "__f_" ++ col)
          = get_column KeyError raw col)
    /\ get_column KeyError df ts_label = get_column KeyError raw ts_label.
Proof.
  intros H Hg. destruct (init_getitem _ _ _ _ H Hg) as (df & Hdf & Hinit).
  exists df. split; [exact Hdf | ].
  pose proof (init_topic_columns _ _ _ Hinit) as Hcols.
  assert (E : forall col, get_column KeyError df (new_col topic col)
                          = get_column KeyError raw col).
  { intros col. rewrite <- (get_column_renamed KeyError topic col raw).
    unfold get_column. rewrite Hcols. reflexivity. }
  split.
  - intros col Hc. rewrite <- (new_col_qualifies topic col Hc). apply E.
  - apply (E ts_label).
Qed.

Lemma store_lookup_after_construction_witness :
  exists df,
    getitem (store_of raw_AB) "B" = Ok df
    /\ (forall col, col <> ts_label ->
          get_column KeyError df ("t_" ++ "B" ++ "__f_" ++ col)
          = get_column KeyError table_B col)
    /\ get_column KeyError df ts_label = get_column KeyError table_B ts_label.
Proof.
  apply (store_lookup_after_construction raw_AB (store_of raw_AB) "B"%string
           table_B); vm_compute; reflexivity.
Defined.

(** X17.  Construction returns no store as soon as one table has no
    [timestamp] column: it raises, and the exception is [AttributeError]
    when that table is the first of the dict. *)
Theorem construction_needs_timestamps
    (d : list (string * DataFrame)) (topic : string) (raw : DataFrame) :
  In (topic, raw) d -> ~ In ts_label (labels raw) ->
  (exists e, __init__ d = Raise e
             /\ (e = AttributeError \/ e = Unsupported))
  /\ (forall rest, d = (topic, raw) :: rest ->
                   __init__ d = Raise AttributeError).
Proof.
  intros Hin Hno. split.
  - induction d as [ | [k r] d IH]; [destruct Hin | ].
    simpl. destruct (init_topic k r) as [df | e] eqn:Ei.
    + destruct Hin as [Heq | Hin].
      * injection Heq as -> ->.
        rewrite (init_topic_missing _ _ Hno) in Ei. discriminate.
      * destruct (IH Hin) as (e & He & Hc). exists e. simpl.
        rewrite He. auto.
    + exists e. simpl. split; [reflexivity | ].
      apply (init_topic_raises _ _ _ Ei).
  - intros rest ->. simpl. rewrite (init_topic_missing _ _ Hno). reflexivity.
Qed.

Lemma construction_needs_timestamps_witness :
  __init__ [("A"%string, MkFrame [("x"%string, FloatCol [f1])] (RangeIndex 1))]
  = Raise AttributeError.
Proof.
  apply (proj2 (construction_needs_timestamps
                  [("A"%string,
                    MkFrame [("x"%string, FloatCol [f1])] (RangeIndex 1))]
                  "A"%string
                  (MkFrame [("x"%string, FloatCol [f1])] (RangeIndex 1))
                  (or_introl eq_refl)
                  ltac:(vm_compute; intuition discriminate)) []).
  reflexivity.
Defined.

End StoreLookupProps.

(** * The fixed-step timeline *)

Module TimelineFacts.

Import PX4MessageDict FrameFacts MergeFacts ConcatFacts.





Lemma col_min_none (v : list Z) : col_min v = None -> v = [].
Proof. destruct v; [reflexivity | discriminate]. Qed.









End TimelineFacts.

Module TimelineProps.

Import PX4MessageDict Samples FrameFacts MergeFacts ConcatFacts TimelineFacts.



End TimelineProps.

(** * [read_ulog]: column and topic names *)

Module ReadUlogFacts.

Import PX4MessageDict ReadUlog FrameFacts ConcatFacts StoreFacts.

Lemma rename_char_cases (c : ascii) :
  (c = "["%char \/ c = "]"%char) /\ rename_char c = "_"%char
  \/ (c <> "["%char /\ c <> "]"%char /\ rename_char c = c).
Proof.
  unfold rename_char.
  destruct (Ascii.eqb_spec c "["%char) as [-> | H1]; [left; auto | ].
  destruct (Ascii.eqb_spec c "]"%char) as [-> | H2]; [left; auto | ].
  right. auto.
Qed.

Lemma rename_char_idem (c : ascii) : rename_char (rename_char c) = rename_char c.
Proof.
  destruct (rename_char_cases c) as [(_ & H) | (_ & _ & H)]; rewrite H;
    [reflexivity | exact H].
Qed.

Lemma get_col_rename (col : string) (i : nat) :
  String.get i (col_rename col) = option_map rename_char (String.get i col).
Proof.
  revert i. induction col as [ | c r IH]; intros i; simpl; [reflexivity | ].
  destruct i as [ | i]; [reflexivity | apply IH].
Qed.

(** *** [str.replace] *)

Lemma starts_with_append (old t : string) : starts_with old (old ++ t) = true.
Proof.
  induction old as [ | c old IH]; simpl; [reflexivity | ].
  rewrite Ascii.eqb_refl. exact IH.
Qed.

Lemma replace_skip (old new p t : string) :
  replace_aux old new (String.length p) (p ++ t) = replace_aux old new 0 t.
Proof.
  induction p as [ | c p IH]; simpl; [reflexivity | exact IH].
Qed.

(** An occurrence at the start is replaced and the search goes on after
    it. *)
Lemma replace_at_start (old new t : string) :
  old <> EmptyString ->
  str_replace old new (old ++ t)
  = (new ++ str_replace old new t)%string.
Proof.
  intros Hne. unfold str_replace.
  destruct old as [ | c p]; [contradiction | ].
  change ((String c p ++ t)%string) with (String c (p ++ t)).
  cbn [replace_aux].
  change (String c (p ++ t)) with ((String c p ++ t)%string).
  rewrite starts_with_append.
  cbn [String.length]. rewrite Nat.sub_succ, Nat.sub_0_r.
  rewrite replace_skip. reflexivity.
Qed.

(** With no occurrence there is nothing to replace. *)
Lemma replace_absent (old new s : string) :
  occurs old s = false -> str_replace old new s = s.
Proof.
  unfold str_replace. induction s as [ | c r IH]; intros H; [reflexivity | ].
  cbn [occurs] in H. apply orb_false_iff in H. destruct H as [H1 H2].
  cbn [replace_aux]. rewrite H1. rewrite (IH H2). reflexivity.
Qed.

(** Characters before the first occurrence are kept. *)
Lemma replace_after_prefix (old new p t : string) :
  (forall q r, p = (q ++ r)%string -> r <> EmptyString ->
               starts_with old (r ++ t) = false) ->
  str_replace old new (p ++ t) = (p ++ str_replace old new t)%string.
Proof.
  unfold str_replace. induction p as [ | c p IH]; intros H; [reflexivity | ].
  change ((String c p ++ t)%string) with (String c (p ++ t)).
  cbn [replace_aux].
  change (String c (p ++ t)) with ((String c p ++ t)%string).
  rewrite (H EmptyString (String c p) eq_refl) by discriminate.
  simpl. f_equal. apply IH.
  intros q r E Hr. apply (H (String c q) r); [ | exact Hr].
  rewrite E. reflexivity.
Qed.

(** *** The dict of tables *)

Lemma getitem_dict_set (d : list (string * DataFrame)) (k k' : string)
    (v : DataFrame) :
  getitem (dict_set d k v) k'
  = if String.eqb k k' then Ok v else getitem d k'.
Proof.
  induction d as [ | [k0 v0] d IH]; simpl.
  - reflexivity.
  - destruct (String.eqb_spec k0 k) as [-> | Hne]; simpl.
    + destruct (String.eqb k k'); reflexivity.
    + rewrite IH. destruct (String.eqb_spec k0 k') as [-> | Hne'].
      * destruct (String.eqb_spec k k') as [-> | _]; [contradiction | reflexivity].
      * reflexivity.
Qed.

Lemma csv_tables_getitem (log_name : string)
    (files acc : list (string * DataFrame)) (topic : string) (raw : DataFrame) :
  getitem (fold_left (fun data f =>
                        dict_set data (topic_name log_name (fst f))
                                 (rename_csv_columns (snd f)))
                     files acc) topic = Ok raw ->
  (exists f, In f files /\ topic_name log_name (fst f) = topic
             /\ raw = rename_csv_columns (snd f))
  \/ getitem acc topic = Ok raw.
Proof.
  revert acc. induction files as [ | f files IH]; intros acc H; simpl in H.
  - right. exact H.
  - destruct (IH _ H) as [(f' & Hin & Ht & Hr) | Hacc].
    + left. exists f'. split; [right; exact Hin | auto].
    + rewrite getitem_dict_set in Hacc.
      destruct (String.eqb_spec (topic_name log_name (fst f)) topic) as [E | _].
      * injection Hacc as <-. left. exists f. split; [left; reflexivity | auto].
      * right. exact Hacc.
Qed.

Lemma init_getitem_inv (d : list (string * DataFrame)) (s : store)
    (topic : string) (df : DataFrame) :
  __init__ d = Ok s -> getitem s topic = Ok df ->
  exists raw, getitem d topic = Ok raw /\ init_topic topic raw = Ok df.
Proof.
  revert s. induction d as [ | [k r] d IH]; intros s H Hg; simpl in *.
  - injection H as <-. discriminate.
  - apply bind_ok in H. destruct H as (df0 & Hdf & H).
    apply bind_ok in H. destruct H as (rest & Hrest & H).
    injection H as <-. simpl in Hg.
    destruct (String.eqb_spec k topic) as [-> | Hne].
    + injection Hg as <-. exists r. auto.
    + apply (IH rest Hrest Hg).
Qed.

End ReadUlogFacts.

Module ReadUlogProps.

Import PX4MessageDict ReadUlog Samples FrameFacts ConcatFacts StoreFacts.
Import ReadUlogFacts.

(** X19.  The renaming of a CSV column replaces every bracket by an
    underscore and nothing else: the length is kept, a character that is
    no bracket stays where it is, no bracket is left, and renaming twice
    is renaming once. *)
Theorem col_rename_replaces_brackets (col : string) :
  String.length (col_rename col) = String.length col
  /\ (forall i c, String.get i col = Some c ->
        String.get i (col_rename col)
        = Some (if (Ascii.eqb c "[" || Ascii.eqb c "]")%bool
                then "_"%char else c))
  /\ (forall i, String.get i (col_rename col) <> Some "["%char
                /\ String.get i (col_rename col) <> Some "]"%char)
  /\ col_rename (col_rename col) = col_rename col.
Proof.
  split; [ | split; [ | split]].
  - induction col as [ | c r IH]; simpl; [reflexivity | rewrite IH; reflexivity].
  - intros i c H. rewrite get_col_rename, H. reflexivity.
  - intros i. rewrite get_col_rename.
    destruct (String.get i col) as [c | ]; simpl; [ | split; discriminate].
    destruct (rename_char_cases c) as [(_ & ->) | (H1 & H2 & ->)].
    + split; discriminate.
    + split; intros E; injection E as E; contradiction.
  - induction col as [ | c r IH]; simpl; [reflexivity | ].
    rewrite rename_char_idem, IH. reflexivity.
Qed.



(** X21.  What [read_ulog] returns: every table of the store comes from
    one of the CSV files, under the topic name made from the name of that
    file, with the columns of the file in their order, the column
    [timestamp] under its label and every other column [col] under
    [t_<topic>__f_<col with its brackets replaced>]. *)
Theorem read_ulog_tables_and_labels
    (log_name : string) (files : list (string * DataFrame)) (s : store)
    (topic : string) (df : DataFrame) :
  read_ulog log_name files = Ok s -> getitem s topic = Ok df ->
  exists f,
    In f files
    /\ topic = topic_name log_name (fst f)
    /\ labels df = map (fun col => new_col topic (col_rename col))
                       (labels (snd f))
    /\ map snd (columns df) = map snd (columns (snd f)).
Proof.
  unfold read_ulog. intros H Hg.
  destruct (init_getitem_inv _ _ _ _ H Hg) as (raw & Hraw & Hinit).
  unfold csv_tables in Hraw.
  destruct (csv_tables_getitem _ _ _ _ _ Hraw) as [(f & Hin & Ht & Hr) | Hacc];
    [ | discriminate].
  exists f. split; [exact Hin | ]. split; [symmetry; exact Ht | ].
  pose proof (init_topic_columns _ _ _ Hinit) as Hc.
  unfold labels. rewrite Hc, Hr. unfold rename, rename_csv_columns. simpl.
  rewrite !map_map. simpl. split; reflexivity.
Qed.

Lemma read_ulog_tables_and_labels_witness :
  exists f,
    In f [("log_att_0"%string,
           MkFrame [("timestamp"%string, IntCol [0; 10]);
                    ("q[0]"%string, FloatCol [f1; f1])] (RangeIndex 2))]
    /\ "att_0"%string = topic_name "log" (fst f)
    /\ ["timestamp"; "t_att_0__f_q_0_"]%string
       = map (fun col => new_col "att_0" (col_rename col)) (labels (snd f))
    /\ [IntCol [0; 10]; FloatCol [f1; f1]] = map snd (columns (snd f)).
Proof.
  destruct (read_ulog_tables_and_labels "log"
              [("log_att_0"%string,
                MkFrame [("timestamp"%string, IntCol [0; 10]);
                         ("q[0]"%string, FloatCol [f1; f1])] (RangeIndex 2))]
              (store_of [("att_0"%string,
                          MkFrame [("timestamp"%string, IntCol [0; 10]);
                                   ("q_0_"%string, FloatCol [f1; f1])]
                                  (RangeIndex 2))])
              "att_0"%string
              (table_of (getitem
                 (store_of [("att_0"%string,
                             MkFrame [("timestamp"%string, IntCol [0; 10]);
                                      ("q_0_"%string, FloatCol [f1; f1])]
                                     (RangeIndex 2))]) "att_0"%string)))
    as (f & Hin & Ht & Hl & Hc).
  - vm_compute. reflexivity.
  - vm_compute. reflexivity.
  - exists f. split; [exact Hin | ]. split; [exact Ht | ].
    split; [rewrite <- Hl | rewrite <- Hc]; vm_compute; reflexivity.
Defined.

End ReadUlogProps.

(** * [cached_log_processing] *)

Module CacheFacts.

Import PX4MessageDict ReadUlog Cache ReadUlogFacts.

Lemma lookup_dict_set {V} (fs : files V) (k k' : string) (c : content V) :
  lookup V (dict_set fs k c) k'
  = if String.eqb k k' then Some c else lookup V fs k'.
Proof.
  induction fs as [ | [k0 c0] fs IH]; simpl.
  - reflexivity.
  - destruct (String.eqb_spec k0 k) as [-> | Hne]; simpl.
    + destruct (String.eqb k k'); reflexivity.
    + rewrite IH. destruct (String.eqb_spec k0 k') as [-> | Hne'].
      * destruct (String.eqb_spec k k') as [-> | _]; [contradiction | reflexivity].
      * reflexivity.
Qed.

(** No occurrence of [.ulg] starts in [stem] when none lies in it: the
    only dot of the pattern is its first character. *)
Lemma ulg_not_across (q r : string) :
  occurs ".ulg" (q ++ r) = false -> r <> EmptyString ->
  starts_with ".ulg" (r ++ ".ulg") = false.
Proof.
  intros Hocc Hr.
  assert (Hr' : starts_with ".ulg" r = false).
  { clear Hr. induction q as [ | c q IH]; simpl in Hocc.
    - destruct r as [ | c r]; [reflexivity | ].
      cbn [occurs] in Hocc. apply orb_false_iff in Hocc. tauto.
    - apply IH. cbn [occurs] in Hocc. apply orb_false_iff in Hocc.
      destruct Hocc as [_ H]. exact H. }
  destruct r as [ | c0 [ | c1 [ | c2 [ | c3 r]]]]; [contradiction | | | | ];
    cbn [starts_with String.append] in Hr' |- *;
    repeat match goal with
           | |- context [Ascii.eqb ?a ?b] =>
               destruct (Ascii.eqb_spec a b); subst;
               cbn [starts_with String.append andb] in *
           end;
    try reflexivity; try discriminate; try congruence.
Qed.

Lemma save_filename_of_stem (stem save_label : string) :
  occurs ".ulg" stem = false ->
  save_filename (stem ++ ".ulg") save_label
  = (stem ++ save_label ++ ".pkl")%string.
Proof.
  intros H. unfold save_filename.
  rewrite replace_after_prefix.
  - f_equal.
    rewrite <- (FrameFacts.append_nil_right ".ulg") at 2.
    rewrite replace_at_start by discriminate.
    unfold str_replace. simpl.
    rewrite FrameFacts.append_nil_right. reflexivity.
  - intros q r E Hr. apply (ulg_not_across q r); [rewrite <- E; exact H | exact Hr].
Qed.

End CacheFacts.

Module CacheProps.

Import PX4MessageDict ReadUlog Cache Samples ReadUlogFacts CacheFacts.

(** X22.  The cache serves what it stored.  After a call that returned
    [d], a call for the same log and label without [force_processing]
    returns [d] again and leaves the files as they are, whatever
    [read_ulog], [processing_func] and the message filter now are: the log
    is not read again. *)
Theorem cache_round_trip
    (V : Type)
    (read_ulog read_ulog' : files V -> string -> string -> result store)
    (processing_func processing_func' : store -> result V)
    (fs fs' : files V) (log msg_filter msg_filter' save_label : string)
    (force_processing : bool) (d : V) :
  cached_log_processing V read_ulog processing_func fs log msg_filter
    save_label force_processing = (fs', Ok d) ->
  cached_log_processing V read_ulog' processing_func' fs' log msg_filter'
    save_label false = (fs', Ok d).
Proof.
  unfold cached_log_processing, exists_file. intros H.
  assert (Hl : lookup V fs' (save_filename log save_label) = Some (Pickle d)).
  { destruct (negb force_processing
              && match lookup V fs (save_filename log save_label) with
                 | Some _ => true
                 | None => false
                 end).
    - destruct (lookup V fs (save_filename log save_label)) as [[d0 | ] | ] eqn:E;
        try discriminate.
      injection H as <- <-. exact E.
    - destruct (read_ulog fs log msg_filter) as [d0 | e]; [ | discriminate].
      destruct (processing_func d0) as [d1 | e]; [ | discriminate].
      injection H as <- <-. rewrite lookup_dict_set, String.eqb_refl.
      reflexivity. }
  rewrite Hl. reflexivity.
Qed.

Lemma cache_round_trip_witness :
  cached_log_processing nat (fun _ _ _ => Raise KeyError)
    (fun _ => Raise ValueError) [("a.pkl"%string, Pickle 7%nat)]
    "a.ulg" "" "" false
  = ([("a.pkl"%string, Pickle 7%nat)], Ok 7%nat).
Proof.
  apply (cache_round_trip nat (fun _ _ _ => Ok []) (fun _ _ _ => Raise KeyError)
           (fun _ : store => Ok 7%nat) (fun _ => Raise ValueError)
           [] [("a.pkl"%string, Pickle 7%nat)] "a.ulg" "" "" "" true 7%nat).
  vm_compute. reflexivity.
Defined.


(** X24.  The path of the pickle.  For a log [<stem>.ulg] whose stem does
    not contain [.ulg], the pickle is [<stem><save_label>.pkl].  For a log
    whose name does not contain [.ulg] the path of the pickle is the path of
    the log itself: a forced call that succeeds then replaces the log by
    the pickle, and an unforced call on the existing log reads and
    processes nothing. *)
Theorem pickle_path
    (V : Type) (read_ulog : files V -> string -> string -> result store)
    (processing_func : store -> result V)
    (fs : files V) (msg_filter save_label : string) :
  (forall stem, occurs ".ulg" stem = false ->
     save_filename (stem ++ ".ulg") save_label
     = (stem ++ save_label ++ ".pkl")%string)
  /\ (forall log, occurs ".ulg" log = false ->
        save_filename log save_label = log
        /\ (forall d, snd (cached_log_processing V read_ulog processing_func
                             fs log msg_filter save_label true) = Ok d ->
                      lookup V (fst (cached_log_processing V read_ulog
                                       processing_func fs log msg_filter
                                       save_label true)) log
                      = Some (Pickle d))
        /\ (lookup V fs log = Some Other ->
            cached_log_processing V read_ulog processing_func fs log
              msg_filter save_label false = (fs, Raise Unsupported))).
Proof.
  split.
  - intros stem H. apply save_filename_of_stem. exact H.
  - intros log H.
    assert (E : save_filename log save_label = log)
      by (unfold save_filename; apply replace_absent; exact H).
    split; [exact E | split].
    + intros d. unfold cached_log_processing. rewrite E. simpl.
      destruct (read_ulog fs log msg_filter) as [d0 | e]; [ | discriminate].
      destruct (processing_func d0) as [d1 | e]; [ | discriminate].
      simpl. intros Hd. injection Hd as <-.
      rewrite lookup_dict_set, String.eqb_refl. reflexivity.
    + intros Hl. unfold cached_log_processing, exists_file. rewrite E, Hl.
      reflexivity.
Qed.

Lemma pickle_path_witness :
  save_filename ("logs/flight1" ++ ".ulg") "_proc"
  = ("logs/flight1" ++ "_proc" ++ ".pkl")%string
  /\ save_filename "flight1.bin" "_proc" = "flight1.bin"%string.
Proof.
  split.
  - apply (proj1 (pickle_path nat (fun _ _ _ => Raise KeyError)
                    (fun _ => Raise ValueError) [] "" "_proc")).
    vm_compute. reflexivity.
  - apply (proj2 (pickle_path nat (fun _ _ _ => Raise KeyError)
                    (fun _ => Raise ValueError) [] "" "_proc")).
    vm_compute. reflexivity.
Defined.

End CacheProps.

(** * [noise_analysis_sensor] *)

Module AnalysisFacts.

Import PX4MessageDict Allan NoiseAnalysis ComputeData.
Import F64OrderFacts RootFinderFacts RootOrderFacts.
Import FrameFacts ConcatFacts StoreFacts.

Lemma get_column_absent (missing : exn) (df : DataFrame) (name : string) :
  ~ In name (labels df) -> get_column missing df name = Raise missing.
Proof.
  intros Hno. unfold get_column.
  destruct (filter (fun c => String.eqb (fst c) name) (columns df))
    as [ | c0 r] eqn:Ef; [reflexivity | ].
  exfalso. apply Hno.
  assert (Hin : In c0 (filter (fun c => String.eqb (fst c) name) (columns df)))
    by (rewrite Ef; left; reflexivity).
  apply filter_In in Hin. destruct Hin as [Hin He].
  apply String.eqb_eq in He. rewrite <- He.
  unfold labels. apply in_map. exact Hin.
Qed.

Lemma get_column_present (missing : exn) (df : DataFrame) (name : string)
    (c : column) :
  get_column missing df name = Ok c -> In name (labels df).
Proof.
  intros H. apply get_column_In in H. unfold labels.
  change name with (fst (name, c)). apply in_map. exact H.
Qed.

Lemma get_series_absent (missing : exn) (df : DataFrame) (name : string) :
  ~ In name (labels df) -> get_series missing df name = Raise missing.
Proof.
  intros H. unfold get_series. rewrite (get_column_absent _ _ _ H). reflexivity.
Qed.

Lemma get_series_raises (missing : exn) (df : DataFrame) (name : string)
    (e : exn) :
  get_series missing df name = Raise e -> e = missing \/ e = Unsupported.
Proof.
  unfold get_series. intros H.
  apply bind_raise in H. destruct H as [H | (c & _ & H)].
  - apply get_column_raises in H. exact H.
  - destruct c; [injection H as <-; auto | discriminate].
Qed.

Lemma get_series_ok (missing : exn) (df : DataFrame) (name : string)
    (s : Series) :
  get_series missing df name = Ok s ->
  get_column missing df name = Ok (FloatCol (s_values s))
  /\ s_index s = index df.
Proof.
  unfold get_series. intros H.
  apply bind_ok in H. destruct H as (c & Hc & H).
  destruct c as [v | v]; [discriminate | ].
  injection H as <-. auto.
Qed.

Lemma NoDup_prefixed (p : string) (l : list string) :
  NoDup l -> NoDup (map (String.append p) l).
Proof.
  induction l as [ | x l IH]; intros H; simpl; [constructor | ].
  inversion H as [ | ? ? Hx Hl]; subst. constructor; [ | apply IH; exact Hl].
  intros Hin. apply in_map_iff in Hin. destruct Hin as (y & Hy & Hin).
  apply append_inj_l in Hy. subst y. contradiction.
Qed.

(** The correlation time of one series. *)
Lemma autocorr_range (fit_corr : Series -> result (list complex))
    (g g' : Series) (tau : float64) :
  autocorr fit_corr g = Ok (g', tau) ->
  isnan tau = true \/ (le zero tau = true /\ le tau f1e6 = true).
Proof.
  unfold autocorr, Autocorr.plot_autocorrelation.
  destruct (to_timedelta 1000000000 (s_index g)) as [idx | e];
    simpl; [ | discriminate].
  destruct (fit_corr (MkSeries idx (s_values g))) as [roots | e];
    simpl; [ | discriminate].
  intros H. injection H as _ <-.
  apply (root_in_window roots (of_Z 0) f1e6);
    [reflexivity | right; reflexivity].
Qed.

Section TauRange.

Variable pow10 : float64 -> float64.
Variable c_bi : float64.

Hypothesis pow10_nan : pow10 nan = nan.
Hypothesis pow10_mono :
  forall x y, le x y = true -> le (pow10 x) (pow10 y) = true.
Hypothesis pow10_0 : pow10 (of_Z 0) = of_Z 1.
Hypothesis pow10_5 : pow10 (of_Z 5) = of_Z 100000.

Lemma allan_tau_range (fit_allan : Series -> result fitted) (g : Series)
    (np : noise_params) :
  allan pow10 c_bi fit_allan g = Ok np ->
  Forall (fun tau => isnan tau = true
                     \/ (le (of_Z 1) tau = true
                         /\ le tau (of_Z 100000) = true))
         [tau_0 np; tau_1 np; tau_2 np].
Proof.
  unfold allan, plot_allan_std_dev.
  destruct (to_timedelta 1000000000 (s_index g)) as [idx | e];
    simpl; [ | discriminate].
  destruct (fit_allan (MkSeries idx (s_values g))) as [ft | e];
    simpl; [ | discriminate].
  intros H. injection H as <-.
  destruct (AllanClaims.noise_of_fit_taus pow10 c_bi ft) as (E0 & E1 & E2).
  rewrite E0, E1, E2.
  assert (Hgen : forall r, In r [log_tau_0 ft; log_tau_1 ft; log_tau_2 ft] ->
            isnan (pow10 r) = true
            \/ (le (of_Z 1) (pow10 r) = true
                /\ le (pow10 r) (of_Z 100000) = true)).
  { intros r Hr.
    destruct (AllanClaims.log_tau_window ft r Hr) as [Hnan | [Hlo Hhi]].
    - left. apply isnan_true in Hnan. rewrite Hnan.
      change S754_nan with nan. rewrite pow10_nan. reflexivity.
    - right. split.
      + rewrite <- pow10_0. apply pow10_mono. exact Hlo.
      + rewrite <- pow10_5. apply pow10_mono. exact Hhi. }
  rewrite Forall_forall. intros tau [<- | [<- | [<- | []]]];
    apply Hgen; simpl; auto.
Qed.

End TauRange.

End AnalysisFacts.

Module NoiseAnalysisProps.

Import PX4MessageDict Allan NoiseAnalysis Samples.
Import F64OrderFacts FrameFacts ConcatFacts StoreFacts AnalysisFacts.

Section Sensor.

Variable pow10 : float64 -> float64.
Variable c_bi : float64.
Variable fit_allan : Series -> result fitted.
Variable fit_corr : Series -> result (list complex).

Hypothesis pow10_nan : pow10 nan = nan.
Hypothesis pow10_mono :
  forall x y, le x y = true -> le (pow10 x) (pow10 y) = true.
Hypothesis pow10_0 : pow10 (of_Z 0) = of_Z 1.
Hypothesis pow10_5 : pow10 (of_Z 5) = of_Z 100000.

(** X25.  What [noise_analysis_sensor] returns: seven entries with keys
    that are all different, [<topic>_randomwalk_correlation_time] first and
    then [<topic>_<key>] for the six keys of [plot_allan_std_dev], each
    holding the values for the axes x, y and z in this order; every
    correlation time is NaN or lies in [0, 1e6] and, with [10**x] monotone,
    NaN at NaN and exact at 0 and 5, every averaging time is NaN or lies in
    [1, 1e5]. *)
Theorem noise_analysis_sensor_result
    (df : DataFrame) (topic : string) (r : list (string * list float64)) :
  noise_analysis_sensor pow10 c_bi fit_allan fit_corr df topic = Ok r ->
  exists c1 c2 c3 n1 n2 n3,
    r = [((topic ++ "_randomwalk_correlation_time")%string, [c1; c2; c3]);
         ((topic ++ "_sig_rw")%string, [sig_rw n1; sig_rw n2; sig_rw n3]);
         ((topic ++ "_sig_bi")%string, [sig_bi n1; sig_bi n2; sig_bi n3]);
         ((topic ++ "_sig_rrw")%string, [sig_rrw n1; sig_rrw n2; sig_rrw n3]);
         ((topic ++ "_tau_0")%string, [tau_0 n1; tau_0 n2; tau_0 n3]);
         ((topic ++ "_tau_1")%string, [tau_1 n1; tau_1 n2; tau_1 n3]);
         ((topic ++ "_tau_2")%string, [tau_2 n1; tau_2 n2; tau_2 n3])]
    /\ NoDup (map fst r)
    /\ Forall (fun c => isnan c = true
                        \/ (le zero c = true /\ le c f1e6 = true))
              [c1; c2; c3]
    /\ Forall (fun n =>
                 Forall (fun tau => isnan tau = true
                                    \/ (le (of_Z 1) tau = true
                                        /\ le tau (of_Z 100000) = true))
                        [tau_0 n; tau_1 n; tau_2 n])
              [n1; n2; n3].
Proof.
  unfold noise_analysis_sensor. intros H.
  apply bind_ok in H. destruct H as (gx & _ & H).
  apply bind_ok in H. destruct H as (gy & _ & H).
  apply bind_ok in H. destruct H as (gz & _ & H).
  apply bind_ok in H. destruct H as ([gx1 c1] & Hx & H).
  apply bind_ok in H. destruct H as ([gy1 c2] & Hy & H).
  apply bind_ok in H. destruct H as ([gz1 c3] & Hz & H).
  apply bind_ok in H. destruct H as (n1 & H1 & H).
  apply bind_ok in H. destruct H as (n2 & H2 & H).
  apply bind_ok in H. destruct H as (n3 & H3 & H).
  injection H as <-.
  exists c1, c2, c3, n1, n2, n3.
  split; [reflexivity | ]. split; [ | split].
  - apply (NoDup_prefixed topic
             ["_randomwalk_correlation_time"; "_sig_rw"; "_sig_bi"; "_sig_rrw";
              "_tau_0"; "_tau_1"; "_tau_2"]%string).
    repeat match goal with
           | |- NoDup (_ :: _) =>
               constructor; [simpl; intuition discriminate | ]
           end.
    constructor.
  - rewrite Forall_forall. intros c [<- | [<- | [<- | []]]];
      [apply (autocorr_range _ _ _ _ Hx) | apply (autocorr_range _ _ _ _ Hy)
       | apply (autocorr_range _ _ _ _ Hz)].
  - rewrite Forall_forall. intros n [<- | [<- | [<- | []]]];
      [apply (allan_tau_range pow10 c_bi pow10_nan pow10_mono pow10_0 pow10_5
                _ _ _ H1)
      | apply (allan_tau_range pow10 c_bi pow10_nan pow10_mono pow10_0 pow10_5
                 _ _ _ H2)
      | apply (allan_tau_range pow10 c_bi pow10_nan pow10_mono pow10_0 pow10_5
                 _ _ _ H3)].
Qed.

End Sensor.

Lemma noise_analysis_sensor_result_witness :
  exists c1 c2 c3 n1 n2 n3,
    match noise_analysis_sensor pow10_floor f1 (fun _ => Ok ft_ordered)
            (fun _ => Ok roots8) table_gyro "gyro" with
    | Ok r => r
    | Raise _ => []
    end
    = [("gyro_randomwalk_correlation_time"%string, [c1; c2; c3]);
       ("gyro_sig_rw"%string, [sig_rw n1; sig_rw n2; sig_rw n3]);
       ("gyro_sig_bi"%string, [sig_bi n1; sig_bi n2; sig_bi n3]);
       ("gyro_sig_rrw"%string, [sig_rrw n1; sig_rrw n2; sig_rrw n3]);
       ("gyro_tau_0"%string, [tau_0 n1; tau_0 n2; tau_0 n3]);
       ("gyro_tau_1"%string, [tau_1 n1; tau_1 n2; tau_1 n3]);
       ("gyro_tau_2"%string, [tau_2 n1; tau_2 n2; tau_2 n3])]
    /\ Forall (fun c => isnan c = true
                        \/ (le zero c = true /\ le c f1e6 = true))
              [c1; c2; c3].
Proof.
  destruct (noise_analysis_sensor_result pow10_floor f1
              (fun _ => Ok ft_ordered) (fun _ => Ok roots8)
              eq_refl AllanClaims.pow10_floor_mono eq_refl eq_refl
              table_gyro "gyro"%string
              match noise_analysis_sensor pow10_floor f1
                      (fun _ => Ok ft_ordered) (fun _ => Ok roots8)
                      table_gyro "gyro" with
              | Ok r => r
              | Raise _ => []
              end)
    as (c1 & c2 & c3 & n1 & n2 & n3 & Hr & _ & Hc & _).
  - vm_compute. reflexivity.
  - exists c1, c2, c3, n1, n2, n3. split; [exact Hr | exact Hc].
Defined.

(** X26.  [noise_analysis_sensor] looks its three columns up before it
    runs any estimator: when the column of one axis is missing the call
    raises, and which exception it raises does not depend on the fits. *)
Theorem noise_analysis_sensor_needs_three_axes
    (df : DataFrame) (topic axis : string) :
  In axis ["x"; "y"; "z"]%string ->
  ~ In ("t_" ++ topic ++ "__f_" ++ axis)%string (labels df) ->
  exists e,
    (e = KeyError \/ e = Unsupported)
    /\ forall pow10 c_bi fit_allan fit_corr,
         noise_analysis_sensor pow10 c_bi fit_allan fit_corr df topic
         = Raise e.
Proof.
  intros Hax Hno. unfold noise_analysis_sensor.
  destruct (get_series KeyError df ("t_" ++ topic ++ "__f_x")) as [gx | ex] eqn:Ex.
  2:{ exists ex. split; [apply (get_series_raises _ _ _ _ Ex) | reflexivity]. }
  destruct (get_series KeyError df ("t_" ++ topic ++ "__f_y")) as [gy | ey] eqn:Ey.
  2:{ exists ey. split; [apply (get_series_raises _ _ _ _ Ey) | reflexivity]. }
  destruct (get_series KeyError df ("t_" ++ topic ++ "__f_z")) as [gz | ez] eqn:Ez.
  2:{ exists ez. split; [apply (get_series_raises _ _ _ _ Ez) | reflexivity]. }
  exfalso.
  destruct Hax as [<- | [<- | [<- | []]]];
    pose proof (get_series_absent KeyError _ _ Hno) as Ha;
    cbn [String.append] in Ha, Ex, Ey, Ez; congruence.
Qed.

Lemma noise_analysis_sensor_needs_three_axes_witness :
  exists e,
    (e = KeyError \/ e = Unsupported)
    /\ forall pow10 c_bi fit_allan fit_corr,
         noise_analysis_sensor pow10 c_bi fit_allan fit_corr
           (table_of (getitem (store_of raw_AB) "A")) "A"
         = Raise e.
Proof.
  apply (noise_analysis_sensor_needs_three_axes
           (table_of (getitem (store_of raw_AB) "A")) "A"%string "y"%string).
  - simpl. auto.
  - vm_compute. intuition discriminate.
Defined.

End NoiseAnalysisProps.

(** * [compute_data] and [estimator_analysis] *)

Module ComputeFacts.

Import PX4MessageDict NoiseAnalysis ComputeData.
Import FrameFacts ConcatFacts StoreFacts AnalysisFacts.

Section Attitude.

Variable quat2euler :
  float64 -> float64 -> float64 -> float64 -> float64 * float64 * float64.
Variable sin : float64 -> float64.
Variable arcsin : float64 -> float64.

Lemma series_quat2euler_ok (q0 q1 q2 q3 : Series) (m : string)
    (rpy : NamedSeries * NamedSeries * NamedSeries) :
  series_quat2euler quat2euler q0 q1 q2 q3 m = Ok rpy ->
  exists roll pitch yaw,
    rpy = (((m ++ "__f_roll")%string, MkSeries (s_index q0) roll),
           ((m ++ "__f_pitch")%string, MkSeries (s_index q0) pitch),
           ((m ++ "__f_yaw")%string, MkSeries (s_index q0) yaw))
    /\ s_values q0 <> [].
Proof.
  unfold series_quat2euler.
  destruct (quat_rows quat2euler (s_values q0) (s_values q1) (s_values q2)
              (s_values q3)) as [ | row rows] eqn:E; [discriminate | ].
  destruct (Nat.eqb _ _); [ | discriminate].
  intros H. injection H as <-.
  eexists. eexists. eexists. split; [reflexivity | ].
  intros Hq. rewrite Hq in E. discriminate.
Qed.

Lemma euler_of_ok (df : DataFrame) (m : string)
    (rpy : NamedSeries * NamedSeries * NamedSeries) :
  euler_of quat2euler df m = Ok rpy ->
  exists roll pitch yaw,
    rpy = (((m ++ "__f_roll")%string, MkSeries (index df) roll),
           ((m ++ "__f_pitch")%string, MkSeries (index df) pitch),
           ((m ++ "__f_yaw")%string, MkSeries (index df) yaw)).
Proof.
  unfold euler_of. intros H.
  apply bind_ok in H. destruct H as (q0 & H0 & H).
  apply bind_ok in H. destruct H as (q1 & _ & H).
  apply bind_ok in H. destruct H as (q2 & _ & H).
  apply bind_ok in H. destruct H as (q3 & _ & H).
  destruct (series_quat2euler_ok _ _ _ _ _ _ H) as (r & p & y & -> & _).
  destruct (get_series_ok _ _ _ _ H0) as (_ & ->).
  exists r, p, y. reflexivity.
Qed.

Lemma euler_of_raises (df : DataFrame) (m : string) (e : exn) :
  euler_of quat2euler df m = Raise e ->
  e = AttributeError \/ e = Unsupported \/ e = ValueError.
Proof.
  unfold euler_of. intros H.
  repeat (apply bind_raise in H;
          destruct H as [H | (? & _ & H)];
          [apply get_series_raises in H; tauto | ]).
  unfold series_quat2euler in H.
  destruct (quat_rows _ _ _ _ _) as [ | row rows];
    [injection H as <-; auto | ].
  destruct (Nat.eqb _ _); [discriminate | injection H as <-; auto].
Qed.

Lemma euler_of_missing (df : DataFrame) (m a : string) :
  In a ["0"; "1"; "2"; "3"]%string ->
  ~ In (m ++ "__f_q_" ++ a ++ "_")%string (labels df) ->
  exists e, euler_of quat2euler df m = Raise e
            /\ (e = AttributeError \/ e = Unsupported).
Proof.
  intros Ha Hno. unfold euler_of.
  destruct (get_series AttributeError df (m ++ "__f_q_0_")) as [q0 | e0] eqn:E0.
  2:{ exists e0. split; [reflexivity | apply (get_series_raises _ _ _ _ E0)]. }
  destruct (get_series AttributeError df (m ++ "__f_q_1_")) as [q1 | e1] eqn:E1.
  2:{ exists e1. split; [reflexivity | apply (get_series_raises _ _ _ _ E1)]. }
  destruct (get_series AttributeError df (m ++ "__f_q_2_")) as [q2 | e2] eqn:E2.
  2:{ exists e2. split; [reflexivity | apply (get_series_raises _ _ _ _ E2)]. }
  destruct (get_series AttributeError df (m ++ "__f_q_3_")) as [q3 | e3] eqn:E3.
  2:{ exists e3. split; [reflexivity | apply (get_series_raises _ _ _ _ E3)]. }
  exfalso.
  destruct Ha as [<- | [<- | [<- | [<- | []]]]];
    pose proof (get_series_absent AttributeError _ _ Hno) as Hx;
    cbn [String.append] in Hx, E0, E1, E2, E3; congruence.
Qed.

(** The table that [compute_data] returns, written out. *)
Lemma compute_data_ok (df m : DataFrame) (printed : option exn) :
  compute_data quat2euler sin arcsin df = Ok (m, printed) ->
  exists roll pitch yaw more,
    m = MkFrame
          (columns df
           ++ [((msg ++ "__f_roll")%string, FloatCol roll);
               ((msg ++ "__f_pitch")%string, FloatCol pitch);
               ((msg ++ "__f_yaw")%string, FloatCol yaw)]
           ++ more)
          (index df)
    /\ match printed with
       | Some ex =>
           more = []
           /\ groundtruth_series quat2euler sin arcsin df
                (((msg ++ "__f_roll")%string, MkSeries (index df) roll),
                 ((msg ++ "__f_pitch")%string, MkSeries (index df) pitch),
                 ((msg ++ "__f_yaw")%string, MkSeries (index df) yaw))
              = Raise ex
       | None =>
           exists roll_gt pitch_gt yaw_gt e_roll e_pitch e_yaw,
             more = [((msg_gt ++ "__f_roll")%string, FloatCol roll_gt);
                     ((msg_gt ++ "__f_pitch")%string, FloatCol pitch_gt);
                     ((msg_gt ++ "__f_yaw")%string, FloatCol yaw_gt);
                     ((msg ++ "__f_roll_error")%string, FloatCol e_roll);
                     ((msg ++ "__f_pitch_error")%string, FloatCol e_pitch);
                     ((msg ++ "__f_yaw_error")%string, FloatCol e_yaw)]
       end.
Proof.
  unfold compute_data. intros H.
  apply bind_ok in H. destruct H as (rpy & Hrpy & H).
  destruct (euler_of_ok _ _ _ Hrpy) as (roll & pitch & yaw & ->).
  exists roll, pitch, yaw.
  destruct (groundtruth_series quat2euler sin arcsin df _) as [l | ex] eqn:Eg.
  - injection H as <- <-.
    unfold groundtruth_series in Eg.
    apply bind_ok in Eg. destruct Eg as (gt & Hgt & Eg).
    destruct (euler_of_ok _ _ _ Hgt) as (rg & pg & yg & ->).
    injection Eg as <-.
    eexists. split; [reflexivity | ].
    do 6 eexists. reflexivity.
  - injection H as <- <-. exists []. split; [reflexivity | ].
    split; [reflexivity | first [reflexivity | exact Eg]].
Qed.

End Attitude.

(** *** Reading the plotted columns *)

Lemma read_columns_ok (df : DataFrame) (names : list string) :
  read_columns df names = Ok tt
  <-> Forall (fun n => exists c, get_column AttributeError df n = Ok c) names.
Proof.
  induction names as [ | n rest IH]; simpl.
  - split; [constructor | reflexivity].
  - destruct (get_column AttributeError df n) as [c | e] eqn:E; simpl.
    + rewrite IH. split.
      * intros H. constructor; [exists c; exact E | exact H].
      * intros H. inversion H; assumption.
    + split; [discriminate | ].
      intros H. inversion H as [ | ? ? (c & Hc) _]. congruence.
Qed.

Lemma filter_absent (df : DataFrame) (name : string) :
  ~ In name (labels df) ->
  filter (fun c => String.eqb (fst c) name) (columns df) = [].
Proof.
  intros Hno.
  destruct (filter (fun c => String.eqb (fst c) name) (columns df))
    as [ | c0 r] eqn:Ef; [reflexivity | ].
  exfalso. apply Hno.
  assert (Hin : In c0 (filter (fun c => String.eqb (fst c) name) (columns df)))
    by (rewrite Ef; left; reflexivity).
  apply filter_In in Hin. destruct Hin as [Hin He].
  apply String.eqb_eq in He. rewrite <- He.
  unfold labels. apply in_map. exact Hin.
Qed.

End ComputeFacts.

Module ComputeProps.

Import PX4MessageDict NoiseAnalysis ComputeData Samples.
Import FrameFacts ConcatFacts StoreFacts AnalysisFacts ComputeFacts.

Section Attitude.

Variable quat2euler :
  float64 -> float64 -> float64 -> float64 -> float64 * float64 * float64.
Variable sin : float64 -> float64.
Variable arcsin : float64 -> float64.

(** X27.  The table returned by [compute_data]: the index and the columns
    of [df], unchanged and first, then the roll, pitch and yaw of the
    attitude and, unless the ground truth failed and its exception was
    printed, the roll, pitch and yaw of the ground truth and the three
    wrapped errors, under these labels and in this order. *)
Theorem compute_data_columns (df m : DataFrame) (printed : option exn) :
  compute_data quat2euler sin arcsin df = Ok (m, printed) ->
  index m = index df
  /\ firstn (List.length (columns df)) (columns m) = columns df
  /\ labels m
     = labels df
       ++ ["t_vehicle_attitude_0__f_roll"; "t_vehicle_attitude_0__f_pitch";
           "t_vehicle_attitude_0__f_yaw"]%string
       ++ match printed with
          | Some _ => []
          | None =>
              ["t_vehicle_attitude_groundtruth_0__f_roll";
               "t_vehicle_attitude_groundtruth_0__f_pitch";
               "t_vehicle_attitude_groundtruth_0__f_yaw";
               "t_vehicle_attitude_0__f_roll_error";
               "t_vehicle_attitude_0__f_pitch_error";
               "t_vehicle_attitude_0__f_yaw_error"]%string
          end.
Proof.
  intros H.
  destruct (compute_data_ok _ _ _ _ _ _ H) as (roll & pitch & yaw & more & -> & Hm).
  split; [reflexivity | ]. split.
  - simpl. rewrite firstn_app, Nat.sub_diag, firstn_all. simpl.
    apply app_nil_r.
  - unfold labels. simpl. rewrite !map_app. simpl. f_equal. f_equal.
    destruct printed as [ex | ].
    + destruct Hm as (-> & _). reflexivity.
    + destruct Hm as (rg & pg & yg & er & ep & ey & ->). reflexivity.
Qed.

(** X28.  [compute_data] fails only for its attitude part.  It raises when
    one of the four attitude quaternion columns is missing and, with
    [ValueError], when they hold no row; a ground truth that is missing
    never makes it raise: the exception is printed and the table comes
    back without the ground truth and without the errors. *)
Theorem compute_data_groundtruth_is_optional (df : DataFrame) :
  (forall a, In a ["0"; "1"; "2"; "3"]%string ->
     ~ In ("t_vehicle_attitude_0__f_q_" ++ a ++ "_")%string (labels df) ->
     exists e, compute_data quat2euler sin arcsin df = Raise e
               /\ (e = AttributeError \/ e = Unsupported))
  /\ (forall q0 q1 q2 q3,
        get_series AttributeError df "t_vehicle_attitude_0__f_q_0_" = Ok q0 ->
        get_series AttributeError df "t_vehicle_attitude_0__f_q_1_" = Ok q1 ->
        get_series AttributeError df "t_vehicle_attitude_0__f_q_2_" = Ok q2 ->
        get_series AttributeError df "t_vehicle_attitude_0__f_q_3_" = Ok q3 ->
        s_values q0 = [] ->
        compute_data quat2euler sin arcsin df = Raise ValueError)
  /\ (forall e, compute_data quat2euler sin arcsin df = Raise e ->
                euler_of quat2euler df msg = Raise e)
  /\ (forall rpy, euler_of quat2euler df msg = Ok rpy ->
        ~ In "t_vehicle_attitude_groundtruth_0__f_q_0_"%string (labels df) ->
        exists m, compute_data quat2euler sin arcsin df
                  = Ok (m, Some AttributeError)).
Proof.
  split; [ | split; [ | split]].
  - intros a Ha Hno.
    destruct (euler_of_missing quat2euler df msg a Ha Hno) as (e & He & Hc).
    exists e. split; [ | exact Hc].
    unfold compute_data. rewrite He. reflexivity.
  - intros q0 q1 q2 q3 H0 H1 H2 H3 Hv.
    unfold compute_data, euler_of.
    change (msg ++ "__f_q_0_")%string with "t_vehicle_attitude_0__f_q_0_"%string.
    change (msg ++ "__f_q_1_")%string with "t_vehicle_attitude_0__f_q_1_"%string.
    change (msg ++ "__f_q_2_")%string with "t_vehicle_attitude_0__f_q_2_"%string.
    change (msg ++ "__f_q_3_")%string with "t_vehicle_attitude_0__f_q_3_"%string.
    rewrite H0, H1, H2, H3. simpl.
    unfold series_quat2euler. rewrite Hv. reflexivity.
  - intros e H. unfold compute_data in H.
    apply bind_raise in H. destruct H as [H | (rpy & _ & H)]; [exact H | ].
    destruct rpy as [[roll pitch] yaw].
    destruct (groundtruth_series quat2euler sin arcsin df (roll, pitch, yaw));
      discriminate.
  - intros rpy Hrpy Hno. unfold compute_data. rewrite Hrpy. simpl.
    destruct rpy as [[roll pitch] yaw].
    assert (Eg : groundtruth_series quat2euler sin arcsin df (roll, pitch, yaw)
                 = Raise AttributeError).
    { unfold groundtruth_series, euler_of.
      change (msg_gt ++ "__f_q_0_")%string
        with "t_vehicle_attitude_groundtruth_0__f_q_0_"%string.
      rewrite (get_series_absent AttributeError _ _ Hno). reflexivity. }
    rewrite Eg. eexists. reflexivity.
Qed.

End Attitude.

Lemma compute_data_columns_witness :
  index computed_att = index table_att
  /\ firstn (List.length (columns table_att)) (columns computed_att)
     = columns table_att
  /\ labels computed_att
     = labels table_att
       ++ ["t_vehicle_attitude_0__f_roll"; "t_vehicle_attitude_0__f_pitch";
           "t_vehicle_attitude_0__f_yaw"]%string
       ++ [].
Proof.
  apply (compute_data_columns quat_tail same same table_att computed_att
           (Some AttributeError)).
  vm_compute. reflexivity.
Defined.

Lemma compute_data_groundtruth_is_optional_witness :
  exists m, compute_data quat_tail same same table_att
            = Ok (m, Some AttributeError).
Proof.
  apply (proj2 (proj2 (proj2
           (compute_data_groundtruth_is_optional quat_tail same same table_att)))
           rpy_att).
  - vm_compute. reflexivity.
  - vm_compute. intuition discriminate.
Defined.

Section Analysis.

Variable quat2euler :
  float64 -> float64 -> float64 -> float64 -> float64 * float64 * float64.
Variable sin : float64 -> float64.
Variable arcsin : float64 -> float64.
Variable mean : list float64 -> float64.
Variable var : list float64 -> float64.
Variable rad2deg : float64 -> float64.

(** X29.  [estimator_analysis] on the table of [compute_data], for a [df]
    that has no error column of its own.  When the ground truth failed in
    [compute_data], [estimator_analysis] raises [AttributeError]: the error
    columns it reads were never made.  When it did not fail, the call
    without plots returns the six statistics, means first. *)
Theorem estimator_analysis_after_compute_data
    (df m : DataFrame) (printed : option exn) :
  compute_data quat2euler sin arcsin df = Ok (m, printed) ->
  (forall l, In l ["t_vehicle_attitude_0__f_roll_error";
                   "t_vehicle_attitude_0__f_pitch_error";
                   "t_vehicle_attitude_0__f_yaw_error"]%string ->
             ~ In l (labels df)) ->
  match printed with
  | Some _ =>
      forall plot, estimator_analysis mean var rad2deg m plot
                   = Raise AttributeError
  | None =>
      exists data,
        estimator_analysis mean var rad2deg m false = Ok data
        /\ map fst data
           = ["roll_error_mean"; "pitch_error_mean"; "yaw_error_mean";
              "roll_error_std"; "pitch_error_std"; "yaw_error_std"]%string
  end.
Proof.
  intros H Hno.
  destruct (compute_data_ok _ _ _ _ _ _ H) as (roll & pitch & yaw & more & -> & Hm).
  assert (Hr := filter_absent df _ (Hno _ (or_introl eq_refl))).
  assert (Hp := filter_absent df _ (Hno _ (or_intror (or_introl eq_refl)))).
  assert (Hy := filter_absent df _
                  (Hno _ (or_intror (or_intror (or_introl eq_refl))))).
  destruct printed as [ex | ].
  - destruct Hm as (-> & _). intros plot.
    unfold estimator_analysis, get_series, get_column. simpl.
    rewrite filter_app.
    change (msg ++ "__f_roll_error")%string
      with "t_vehicle_attitude_0__f_roll_error"%string.
    rewrite Hr. reflexivity.
  - destruct Hm as (rg & pg & yg & er & ep & ey & ->).
    unfold estimator_analysis, get_series, get_column. simpl.
    rewrite !filter_app.
    change (msg ++ "__f_roll_error")%string
      with "t_vehicle_attitude_0__f_roll_error"%string.
    change (msg ++ "__f_pitch_error")%string
      with "t_vehicle_attitude_0__f_pitch_error"%string.
    change (msg ++ "__f_yaw_error")%string
      with "t_vehicle_attitude_0__f_yaw_error"%string.
    rewrite Hr, Hp, Hy. simpl.
    eexists. split; reflexivity.
Qed.

(** X30.  The [plot] flag of [estimator_analysis] changes nothing in what
    is returned: a call with plots that returns a dict returns the dict of
    the call without plots, and it returns at all exactly when that call
    does and the table has every column that the five plots read. *)
Theorem estimator_analysis_plot_flag
    (df : DataFrame) (data : list (string * float64)) :
  estimator_analysis mean var rad2deg df true = Ok data
  <-> estimator_analysis mean var rad2deg df false = Ok data
      /\ Forall (fun n => exists c, get_column AttributeError df n = Ok c)
                (plot_altitude_columns true ++ plot_euler_columns true
                 ++ plot_euler_error_columns
                 ++ plot_local_position_columns true
                 ++ plot_velocity_columns true).
Proof.
  rewrite <- read_columns_ok. unfold estimator_analysis.
  repeat match goal with
         | |- context [bind (get_series ?e ?d ?n) _] =>
             destruct (get_series e d n); cbn [bind];
             [ | split; [discriminate | intros [Hd _]; discriminate Hd]]
         end.
  match goal with
  | |- context [read_columns df ?l] =>
      destruct (read_columns df l) as [[] | e]; cbn [bind]
  end.
  - split; [intros Hd; split; [exact Hd | reflexivity] | intros [Hd _]; exact Hd].
  - split; [discriminate | intros [_ Hd]; discriminate Hd].
Qed.

End Analysis.

Lemma estimator_analysis_after_compute_data_witness :
  estimator_analysis first_or_nan first_or_nan same computed_att true
  = Raise AttributeError
  /\ estimator_analysis first_or_nan first_or_nan same computed_att false
     = Raise AttributeError.
Proof.
  assert (H : forall l,
             In l ["t_vehicle_attitude_0__f_roll_error";
                   "t_vehicle_attitude_0__f_pitch_error";
                   "t_vehicle_attitude_0__f_yaw_error"]%string ->
             ~ In l (labels table_att)).
  { intros l Hl Hin. simpl in Hl.
    destruct Hl as [<- | [<- | [<- | []]]];
      vm_compute in Hin; intuition discriminate. }
  split;
    apply (estimator_analysis_after_compute_data quat_tail same same
             first_or_nan first_or_nan same table_att computed_att
             (Some AttributeError) eq_refl H).
Defined.

End ComputeProps.
